(** * A Flask façade over a hosted assistant service: model and properties

    Shallow embedding of [demo-project/app.py]: the assistant provisioner
    [get_or_create_assistant], the [/chat] view with its polling generator
    [generate], and the [/upload] view [upload_file].

    The hosted service is an external collaborator.  It is modelled by a
    record of answers ([Remote]); every call the program makes is written to
    a log, together with the other observable effects (sleeping, printing,
    yielding a chunk of the response body). *)

From Stdlib Require Import ZArith QArith String Ascii List Lia.
From stdpp Require Import base option list strings pretty gmap.

Set Warnings "-register-all".
Local Open Scope string_scope.

(** ** Python values *)

(** The values that flow through the views: what [request.json] can produce
    ([None], booleans, integers, strings, lists, dicts) and the identifiers
    the service hands back (strings).  A dict is kept as the list of its
    items in insertion order, which is the order [json.dumps] writes them
    in; [assoc] reads the first binding of a key.  JSON numbers with a
    fraction or an exponent are not represented. *)
Inductive value : Type :=
| VNone
| VBool (b : bool)
| VInt (n : Z)
| VStr (s : string)
| VList (items : list value)
| VDict (items : list (string * value)).

(** Python truth value testing, as used by [if not thread_id]. *)
Definition truthy (v : value) : bool :=
  match v with
  | VNone => false
  | VBool b => b
  | VInt n => negb (n =? 0)%Z
  | VStr s => negb (s =? "")
  | VList items => match items with [] => false | _ :: _ => true end
  | VDict items => match items with [] => false | _ :: _ => true end
  end.

(** Truth value of an [Optional[str]], as used by [if assistant_id]. *)
Definition truthy_opt (o : option string) : bool :=
  match o with
  | None => false
  | Some s => negb (s =? "")
  end.

(** ** Exceptions and results *)

(** An exception object: its class name and the text [str(e)] returns.  Only
    subclasses of [Exception] are modelled, so [except Exception] catches
    every value of this type. *)
Record exn : Type := Exn { exn_class : string; exn_text : string }.

Definition str (e : exn) : string := exn_text e.

Inductive result (A : Type) : Type :=
| Ok (a : A)
| Raise (e : exn).
Arguments Ok {A} a.
Arguments Raise {A} e.

Definition AttributeError (obj attr : string) : exn :=
  Exn "AttributeError" ("'" +:+ obj +:+ "' object has no attribute '" +:+ attr +:+ "'").

Definition IndexError : exn := Exn "IndexError" "list index out of range".

Definition KeyError (key : string) : exn := Exn "KeyError" ("'" +:+ key +:+ "'").

(** Name of a value's Python type, as it appears in error messages. *)
Definition type_name (v : value) : string :=
  match v with
  | VNone => "NoneType"
  | VBool _ => "bool"
  | VInt _ => "int"
  | VStr _ => "str"
  | VList _ => "list"
  | VDict _ => "dict"
  end.

(** ** The remote service *)

Definition LF : string := String (ascii_of_nat 10) EmptyString.

(** Keyword arguments of [client.beta.assistants.create]. *)
Record assistant_profile : Type := {
  profile_name : string;
  profile_description : string;
  profile_instructions : string;
  profile_model : string;
  profile_tools : list string;
  profile_temperature : Q;
  profile_response_format : string
}.

(** A content block of a message: a text block carries [.text.value]; the
    other block kinds of the service (image blocks and the like) have no
    [text] attribute. *)
Inductive content_block : Type :=
| TextBlock (text_value : string)
| OtherBlock (kind : string).

Record message : Type := {
  role : string;
  content : list content_block
}.

(** One call to the service, with the arguments the program passes. *)
Inductive call : Type :=
| AssistantsRetrieve (assistant_id : string)
| AssistantsCreate (profile : assistant_profile)
| AssistantsUpdate (assistant_id : string) (file_ids : list string)
| ThreadsCreate
| MessagesCreate (thread_id : value) (msg_role : string) (msg_content : value)
| RunsCreate (thread_id : value) (assistant_id : string)
| RunsRetrieve (thread_id : value) (run_id : string)
| MessagesList (thread_id : value)
| FilesCreate (file : list Byte.byte) (purpose : string).

(** What the service answers.  Each field gives the outcome of the
    corresponding call: the part of the returned object the program reads,
    or the exception raised.  [runs_retrieve] is indexed by the number of
    polls made before: its [n]-th answer is the [.status] seen by the
    [n]-th iteration of the polling loop. *)
Record Remote : Type := {
  assistants_retrieve : string -> result unit;
  assistants_create : assistant_profile -> result string;
  assistants_update : string -> list string -> result unit;
  threads_create : result string;
  messages_create : value -> string -> value -> result unit;
  runs_create : value -> string -> result string;
  runs_retrieve : nat -> value -> string -> result string;
  messages_list : value -> result (list message);
  files_create : list Byte.byte -> string -> result string
}.

(** ** Effects *)

Inductive event : Type :=
| ECall (c : call)
| ESleep (milliseconds : nat)
| EPrint (line : string)
| EYield (chunk : string).

(** A computation writes a log of events and either returns or raises. *)
Definition M (A : Type) : Type := (list event * result A)%type.

#[global]
Instance M_ret : MRet M := λ A a, ([], Ok a).

#[global]
Instance M_bind : MBind M := λ A B k m,
  match m with
  | (log, Ok a) => let '(log', r) := k a in ((log ++ log')%list, r)
  | (log, Raise e) => (log, Raise e)
  end.

#[global]
Instance M_throw : MThrow exn M := λ A e, ([], Raise e).

(** [try: body except Exception as e: handler e]. *)
Definition try_except {A} (body : M A) (handler : exn -> M A) : M A :=
  match body with
  | (log, Ok a) => (log, Ok a)
  | (log, Raise e) => let '(log', r) := handler e in ((log ++ log')%list, r)
  end.

Definition emit (e : event) : M unit := ([e], Ok tt).

(** Performing call [c], answered by [answer]. *)
Definition remote {A} (c : call) (answer : result A) : M A := ([ECall c], answer).

Definition lift {A} (r : result A) : M A := ([], r).

(** Calls of a log, in order. *)
Definition calls (log : list event) : list call :=
  omap (λ e, match e with ECall c => Some c | _ => None end) log.

(** Chunks yielded in a log, in order. *)
Definition chunks (log : list event) : list string :=
  omap (λ e, match e with EYield s => Some s | _ => None end) log.

(** ** Assistant provisioner *)

Definition chat_assistant_profile : assistant_profile := {|
  profile_name := "Chat Assistant";
  profile_description :=
    "A helpful chat assistant that can write code and process files";
  profile_instructions :=
    "You are a helpful and knowledgeable assistant that excels at:" +:+ LF +:+
    "            1. Providing clear and concise responses" +:+ LF +:+
    "            2. Writing and explaining code" +:+ LF +:+
    "            3. Analyzing and processing files" +:+ LF +:+
    "            4. Maintaining context throughout conversations" +:+ LF +:+
    "            Always format code blocks properly and explain your reasoning.";
  profile_model := "gpt-4-turbo-preview";
  profile_tools := ["code_interpreter"];
  profile_temperature := 7 # 10;
  profile_response_format := "text"
|}.

Definition is_assistants_create (c : call) : bool :=
  match c with AssistantsCreate _ => true | _ => false end.

Definition is_threads_create (c : call) : bool :=
  match c with ThreadsCreate => true | _ => false end.

Definition is_assistants_update (c : call) : bool :=
  match c with AssistantsUpdate _ _ => true | _ => false end.

(** Number of calls in a log that satisfy [p]. *)
Definition count_calls (p : call -> bool) (log : list event) : nat :=
  length (List.filter p (calls log)).

(** Outcome of a block that may [return] from the enclosing function. *)
Inductive flow (A B : Type) : Type :=
| Return (a : A)
| Fallthrough (b : B).
Arguments Return {A B} a.
Arguments Fallthrough {A B} b.

(** The creation branch (lines 34-51). *)
Definition create_assistant (R : Remote) : M string :=
  assistant_id ← remote (AssistantsCreate chat_assistant_profile)
                        (assistants_create R chat_assistant_profile);
  emit (EPrint ("Created new assistant with ID: " +:+ assistant_id));;
  mret assistant_id.

(** [get_or_create_assistant], with the value of [os.getenv("ASSISTANT_ID")]
    as an argument. *)
Definition get_or_create_assistant (R : Remote) (getenv : option string) : M string :=
  let assistant_id := getenv in
  step ← match assistant_id with
         | Some id =>
             if truthy_opt assistant_id then
               try_except
                 (remote (AssistantsRetrieve id) (assistants_retrieve R id);;
                  mret (Return id))
                 (λ _, emit (EPrint ("Could not find assistant with ID: " +:+ id));;
                       mret (Fallthrough None))
             else mret (Fallthrough assistant_id)
         | None => mret (Fallthrough assistant_id)
         end;
  match step with
  | Return id => mret id
  | Fallthrough assistant_id =>
      match assistant_id with
      | Some id => if negb (truthy_opt assistant_id) then create_assistant R else mret id
      | None => create_assistant R
      end
  end.

(** ** The [/chat] view *)

(** What a view function returns to Flask: a dict (sent as JSON with status
    200), a [(dict, status)] pair, or a streaming [Response] wrapping the
    generator, which is determined by the variables it closes over. *)
Inductive view_return : Type :=
| RetDict (body : value)
| RetDictStatus (body : value) (status : nat)
| RetStream (thread_id : value) (run_id : string) (mimetype : string).

Definition status_code (r : view_return) : nat :=
  match r with
  | RetDict _ => 200
  | RetDictStatus _ status => status
  | RetStream _ _ _ => 200
  end.

(** First binding of [key] among the items of a dict. *)
Fixpoint assoc {A} (key : string) (items : list (string * A)) : option A :=
  match items with
  | [] => None
  | (k, v) :: rest => if k =? key then Some v else assoc key rest
  end.

(** [data.get(key, dflt)]: only a dict has the method. *)
Definition get (data : value) (key : string) (dflt : value) : M value :=
  match data with
  | VDict items => mret (default dflt (assoc key items))
  | _ => mthrow (AttributeError (type_name data) "get")
  end.

Definition error_body (text : string) : value := VDict [("error", VStr text)].

(** [chat], up to the construction of the streaming response.  Reading
    [request.json] may itself raise; its outcome is an argument. *)
Definition chat (R : Remote) (ASSISTANT_ID : string) (request_json : result value)
  : M view_return :=
  data ← lift request_json;
  message ← get data "message" (VStr "");
  thread_id ← get data "thread_id" VNone;
  try_except
    (thread_id ← (if negb (truthy thread_id)
                  then thread ← remote ThreadsCreate (threads_create R);
                       mret (VStr thread)
                  else mret thread_id);
     remote (MessagesCreate thread_id "user" message)
            (messages_create R thread_id "user" message);;
     run ← remote (RunsCreate thread_id ASSISTANT_ID)
                  (runs_create R thread_id ASSISTANT_ID);
     mret (RetStream thread_id run "text/event-stream"))
    (λ e, mret (RetDictStatus (error_body (str e)) 500)).

(** ** The polling generator *)

Inductive loop_ctl : Type := Break | Continue.

(** How far the generator has got: its body returned ([Closed]), an
    exception left it ([Failed]), or it is still in the loop ([Polling]). *)
Inductive stream_state : Type :=
| Closed
| Failed (e : exn)
| Polling.

(** [l[0]]. *)
Definition first {A} (l : list A) : M A :=
  match l with
  | x :: _ => mret x
  | [] => mthrow IndexError
  end.

(** [block.text.value]. *)
Definition text_value (block : content_block) : M string :=
  match block with
  | TextBlock v => mret v
  | OtherBlock kind => mthrow (AttributeError kind "text")
  end.

Definition pending (status : string) : Prop :=
  status ≠ "completed" ∧ status ≠ "failed".

Definition terminal (status : string) : Prop :=
  status = "completed" ∨ status = "failed".

Section Generator.

(** [json.dumps], from the Python standard library. *)
Variable json_dumps : value -> string.

Variable R : Remote.

(** The variables [generate] closes over. *)
Variable thread_id : value.
Variable run_id : string.

(** The text of one server-sent event: [f"data: {json.dumps(d)}\n\n"]. *)
Definition sse_frame (d : value) : string :=
  "data: " +:+ json_dumps d +:+ LF +:+ LF.

Definition response_data (text : string) : value :=
  VDict [("content", VStr text); ("thread_id", thread_id)].

Definition error_data : value :=
  VDict [("error", VStr "Assistant run failed"); ("thread_id", thread_id)].

(** One pass through the body of [while True], making poll number [n].
    [time.sleep(0.5)] is logged in milliseconds. *)
Definition iteration (n : nat) : M loop_ctl :=
  run_status ← remote (RunsRetrieve thread_id run_id)
                      (runs_retrieve R n thread_id run_id);
  if run_status =? "completed" then
    messages ← remote (MessagesList thread_id) (messages_list R thread_id);
    latest_message ← first messages;
    (if role latest_message =? "assistant" then
       block ← first (content latest_message);
       text ← text_value block;
       emit (EYield (sse_frame (response_data text)))
     else mret ());;
    mret Break
  else if run_status =? "failed" then
    emit (EYield (sse_frame error_data));;
    mret Break
  else
    emit (ESleep 500);;
    mret Continue.

(** The loop, run for at most [fuel] iterations starting with poll [n]. *)
Fixpoint generate_from (fuel n : nat) : list event * stream_state :=
  match fuel with
  | 0 => ([], Polling)
  | S fuel' =>
      match iteration n with
      | (log, Ok Continue) =>
          let '(log', st) := generate_from fuel' (S n) in ((log ++ log')%list, st)
      | (log, Ok Break) => (log, Closed)
      | (log, Raise e) => (log, Failed e)
      end
  end.

Definition generate (fuel : nat) : list event * stream_state :=
  generate_from fuel 0.

(** The log of [k] iterations that all found the run pending. *)
Fixpoint pending_log (k : nat) : list event :=
  match k with
  | 0 => []
  | S k' => ECall (RunsRetrieve thread_id run_id) :: ESleep 500 :: pending_log k'
  end.

End Generator.

(** ** The [/upload] view *)

Record FileStorage : Type := {
  filename : string;
  stream : list Byte.byte
}.

(** [request.files[key]]. *)
Definition files_getitem (files : list (string * FileStorage)) (key : string)
  : M FileStorage :=
  match assoc key files with
  | Some f => mret f
  | None => mthrow (KeyError key)
  end.

(** [key in request.files]. *)
Definition files_contains (key : string) (files : list (string * FileStorage)) : bool :=
  match assoc key files with
  | Some _ => true
  | None => false
  end.

Definition upload_file (R : Remote) (ASSISTANT_ID : string)
    (request_files : list (string * FileStorage)) : M view_return :=
  if negb (files_contains "file" request_files) then
    mret (RetDictStatus (error_body "No file provided") 400)
  else
    file ← files_getitem request_files "file";
    try_except
      (openai_file ← remote (FilesCreate (stream file) "assistants")
                            (files_create R (stream file) "assistants");
       remote (AssistantsUpdate ASSISTANT_ID [openai_file])
              (assistants_update R ASSISTANT_ID [openai_file]);;
       mret (RetDict (VDict [("file_id", VStr openai_file)])))
      (λ e, mret (RetDictStatus (error_body (str e)) 500)).

(** ** Files attached to assistants on the service *)

(** The service keeps, for each assistant, the list of attached file ids;
    a successful [assistants.update(assistant_id, file_ids=...)] stores the
    list it is given.  The other calls leave the attachments alone. *)
Definition apply_call (attached : gmap string (list string)) (c : call)
  : gmap string (list string) :=
  match c with
  | AssistantsUpdate assistant_id file_ids => <[assistant_id := file_ids]> attached
  | _ => attached
  end.

Definition replay (log : list event) (attached : gmap string (list string))
  : gmap string (list string) :=
  foldl apply_call attached (calls log).

(** ** A serializer and a service to run the model on *)

Definition DQUOTE : string := String (ascii_of_nat 34) EmptyString.
Definition BACKSLASH : string := String (ascii_of_nat 92) EmptyString.

Definition hex_digit (n : nat) : string :=
  String (nth n (list_ascii_of_string "0123456789abcdef") "0"%char) EmptyString.

(** [json.dumps] on one character of an ASCII string. *)
Definition escape_char (c : ascii) : string :=
  let n := nat_of_ascii c in
  if (n =? 34)%nat then BACKSLASH +:+ DQUOTE
  else if (n =? 92)%nat then BACKSLASH +:+ BACKSLASH
  else if (n =? 10)%nat then BACKSLASH +:+ "n"
  else if (n =? 13)%nat then BACKSLASH +:+ "r"
  else if (n =? 9)%nat then BACKSLASH +:+ "t"
  else if (n =? 8)%nat then BACKSLASH +:+ "b"
  else if (n =? 12)%nat then BACKSLASH +:+ "f"
  else if ((n <? 32)%nat || (n =? 127)%nat)%bool
       then BACKSLASH +:+ "u00" +:+ hex_digit (n / 16) +:+ hex_digit (n mod 16)
  else String c EmptyString.

Fixpoint escape (s : string) : string :=
  match s with
  | EmptyString => EmptyString
  | String c rest => escape_char c +:+ escape rest
  end.

Definition quoted (s : string) : string := DQUOTE +:+ escape s +:+ DQUOTE.

(** [json.dumps] with its default separators, on values whose strings are
    ASCII text.  It instantiates the serializer in the examples below; the
    properties of [generate] hold for any serializer. *)
Fixpoint dumps_ascii (v : value) : string :=
  match v with
  | VNone => "null"
  | VBool true => "true"
  | VBool false => "false"
  | VInt n => pretty n
  | VStr s => quoted s
  | VList items =>
      "[" +:+
      (fix elements (l : list value) : string :=
         match l with
         | [] => ""
         | [x] => dumps_ascii x
         | x :: rest => dumps_ascii x +:+ ", " +:+ elements rest
         end) items +:+ "]"
  | VDict items =>
      "{" +:+
      (fix members (l : list (string * value)) : string :=
         match l with
         | [] => ""
         | [(k, x)] => quoted k +:+ ": " +:+ dumps_ascii x
         | (k, x) :: rest => quoted k +:+ ": " +:+ dumps_ascii x +:+ ", " +:+ members rest
         end) items +:+ "}"
  end.

Definition not_found : exn := Exn "NotFoundError" "Error code: 404".

(** A service on which every call succeeds; the run is found queued, then
    in progress, then completed, and the thread then ends with an answer of
    the assistant. *)
Definition demo_remote : Remote := {|
  assistants_retrieve := λ _, Ok ();
  assistants_create := λ _, Ok "asst_new";
  assistants_update := λ _ _, Ok ();
  threads_create := Ok "thread_new";
  messages_create := λ _ _ _, Ok ();
  runs_create := λ _ _, Ok "run_1";
  runs_retrieve := λ n _ _,
    Ok (match n with 0 => "queued" | 1 => "in_progress" | _ => "completed" end);
  messages_list := λ _,
    Ok [ {| role := "assistant"; content := [TextBlock "Hello!"] |};
         {| role := "user"; content := [TextBlock "hi"] |} ];
  files_create := λ _ _, Ok "file_1"
|}.

(** The same service, with other answers to [runs.retrieve]. *)
Definition with_polls (answers : nat -> result string) (R : Remote) : Remote := {|
  assistants_retrieve := assistants_retrieve R;
  assistants_create := assistants_create R;
  assistants_update := assistants_update R;
  threads_create := threads_create R;
  messages_create := messages_create R;
  runs_create := runs_create R;
  runs_retrieve := λ n _ _, answers n;
  messages_list := messages_list R;
  files_create := files_create R
|}.

(** The same service, with other answers to [messages.list]. *)
Definition with_messages (messages : list message) (R : Remote) : Remote := {|
  assistants_retrieve := assistants_retrieve R;
  assistants_create := assistants_create R;
  assistants_update := assistants_update R;
  threads_create := threads_create R;
  messages_create := messages_create R;
  runs_create := runs_create R;
  runs_retrieve := runs_retrieve R;
  messages_list := λ _, Ok messages;
  files_create := files_create R
|}.

(** The demo service, except that the assistant's answer starts with an
    image produced by the code interpreter, followed by its text. *)
Definition image_first_remote : Remote :=
  with_messages
    [ {| role := "assistant";
         content := [OtherBlock "ImageFileContentBlock"; TextBlock "See the chart."] |};
      {| role := "user"; content := [TextBlock "plot it"] |} ]
    demo_remote.

(** The same service, on which no thread can be created. *)
Definition without_threads (e : exn) (R : Remote) : Remote := {|
  assistants_retrieve := assistants_retrieve R;
  assistants_create := assistants_create R;
  assistants_update := assistants_update R;
  threads_create := Raise e;
  messages_create := messages_create R;
  runs_create := runs_create R;
  runs_retrieve := runs_retrieve R;
  messages_list := messages_list R;
  files_create := files_create R
|}.

(** The same service, with another answer to [files.create]. *)
Definition with_upload (answer : result string) (R : Remote) : Remote := {|
  assistants_retrieve := assistants_retrieve R;
  assistants_create := assistants_create R;
  assistants_update := assistants_update R;
  threads_create := threads_create R;
  messages_create := messages_create R;
  runs_create := runs_create R;
  runs_retrieve := runs_retrieve R;
  messages_list := messages_list R;
  files_create := λ _ _, answer
|}.

Definition connection_error : exn := Exn "APIConnectionError" "Connection error.".

Definition demo_file : FileStorage :=
  {| filename := "notes.txt"; stream := [Byte.x68; Byte.x69] |}.

(** The same service, on which no assistant can be retrieved. *)
Definition without_assistants (R : Remote) : Remote := {|
  assistants_retrieve := λ _, Raise not_found;
  assistants_create := assistants_create R;
  assistants_update := assistants_update R;
  threads_create := threads_create R;
  messages_create := messages_create R;
  runs_create := runs_create R;
  runs_retrieve := runs_retrieve R;
  messages_list := messages_list R;
  files_create := files_create R
|}.

(** ** Observations on logs *)

(** Durations slept in a log, in order, and their sum (milliseconds). *)
Definition sleeps (log : list event) : list nat :=
  omap (λ e, match e with ESleep ms => Some ms | _ => None end) log.

Definition slept (log : list event) : nat := sum_list (sleeps log).

Definition is_runs_retrieve (c : call) : bool :=
  match c with RunsRetrieve _ _ => true | _ => false end.

Definition is_messages_list (c : call) : bool :=
  match c with MessagesList _ => true | _ => false end.

Definition is_assistants_retrieve (c : call) : bool :=
  match c with AssistantsRetrieve _ => true | _ => false end.

Definition is_files_create (c : call) : bool :=
  match c with FilesCreate _ _ => true | _ => false end.

(** What the iteration that leaves the loop can log after its poll:
    nothing, a frame, the listing of the messages, or the listing followed
    by a frame. *)
Definition last_turn_tail (thread_id : value) (tail : list event) : Prop :=
  tail = [] ∨
  (∃ chunk, tail = [EYield chunk]) ∨
  tail = [ECall (MessagesList thread_id)] ∨
  (∃ chunk, tail = [ECall (MessagesList thread_id); EYield chunk]).

(** Unfolds the monad operations of a computation applied to known answers. *)
Ltac run :=
  unfold mbind, M_bind, mret, M_ret, mthrow, M_throw, try_except, remote, emit, lift;
  cbn [fst snd app].

(** * Properties *)

Local Open Scope nat_scope.

(** ** Logs *)

Lemma calls_app (l1 l2 : list event) : calls (l1 ++ l2) = (calls l1 ++ calls l2)%list.
Proof. apply omap_app. Qed.

Lemma chunks_app (l1 l2 : list event) : chunks (l1 ++ l2) = (chunks l1 ++ chunks l2)%list.
Proof. apply omap_app. Qed.

Lemma count_calls_app (p : call -> bool) (l1 l2 : list event) :
  count_calls p (l1 ++ l2) = count_calls p l1 + count_calls p l2.
Proof.
  unfold count_calls. rewrite calls_app, List.filter_app. apply length_app.
Qed.

Lemma nonempty_eqb (s : string) : s ≠ "" → (s =? "")%string = false.
Proof. apply String.eqb_neq. Qed.

(** ** Assistant provisioner *)

Lemma create_assistant_calls (R : Remote) :
  count_calls is_assistants_create (create_assistant R).1 = 1 ∧
  (create_assistant R).2 = assistants_create R chat_assistant_profile.
Proof.
  unfold create_assistant. run.
  destruct (assistants_create R chat_assistant_profile); split; reflexivity.
Qed.

(** C6: when the configured id is set, non-empty and retrieved successfully,
    the provisioner returns that id after the single retrieval call and
    creates nothing; when it is unset, empty, or its retrieval raises, the
    provisioner makes exactly one creation call and its outcome is the id
    issued by that call. *)
Theorem get_or_create_assistant_reuse_or_create (R : Remote) (getenv : option string) :
  (∀ id, getenv = Some id → id ≠ "" → assistants_retrieve R id = Ok () →
     get_or_create_assistant R getenv = ([ECall (AssistantsRetrieve id)], Ok id) ∧
     count_calls is_assistants_create (get_or_create_assistant R getenv).1 = 0) ∧
  ((getenv = None ∨ getenv = Some "" ∨
    ∃ id e, getenv = Some id ∧ id ≠ "" ∧ assistants_retrieve R id = Raise e) →
     count_calls is_assistants_create (get_or_create_assistant R getenv).1 = 1 ∧
     (get_or_create_assistant R getenv).2 = assistants_create R chat_assistant_profile).
Proof.
  split.
  - intros id -> Hne Hret. unfold get_or_create_assistant, truthy_opt.
    rewrite (nonempty_eqb id Hne). run. rewrite Hret. cbn. split; reflexivity.
  - pose proof (create_assistant_calls R) as [Hcount Hres].
    intros [-> | [-> | (id & e & -> & Hne & Hret)]].
    + unfold get_or_create_assistant.
      destruct (create_assistant R) as [log r]. run. cbn in *. split; assumption.
    + unfold get_or_create_assistant.
      destruct (create_assistant R) as [log r]. run. cbn in *. split; assumption.
    + unfold get_or_create_assistant, truthy_opt.
      rewrite (nonempty_eqb id Hne).
      destruct (create_assistant R) as [log r]. run. rewrite Hret. cbn in *.
      split; assumption.
Qed.

Lemma get_or_create_assistant_reuse_or_create_witness :
  get_or_create_assistant demo_remote (Some "asst_1")
    = ([ECall (AssistantsRetrieve "asst_1")], Ok "asst_1") ∧
  (count_calls is_assistants_create
     (get_or_create_assistant (without_assistants demo_remote) (Some "asst_1")).1 = 1 ∧
   (get_or_create_assistant (without_assistants demo_remote) (Some "asst_1")).2
     = Ok "asst_new") ∧
  (get_or_create_assistant demo_remote None).2 = Ok "asst_new".
Proof.
  split; [| split].
  - apply (proj1 (get_or_create_assistant_reuse_or_create demo_remote (Some "asst_1")) "asst_1");
      [reflexivity | discriminate | reflexivity].
  - apply (proj2 (get_or_create_assistant_reuse_or_create
                    (without_assistants demo_remote) (Some "asst_1"))).
    right; right. exists "asst_1", not_found.
    split; [reflexivity | split; [discriminate | reflexivity]].
  - apply (proj2 (get_or_create_assistant_reuse_or_create demo_remote None)).
    left; reflexivity.
Defined.

(** ** The polling generator *)

Lemma pending_not_terminal (status : string) : pending status ↔ ¬ terminal status.
Proof. unfold pending, terminal. tauto. Qed.

Lemma terminal_dec (status : string) : {terminal status} + {pending status}.
Proof.
  unfold terminal, pending.
  destruct (String.eqb_spec status "completed"); [left; auto |].
  destruct (String.eqb_spec status "failed"); [left; auto | right; auto].
Qed.

Section GeneratorFacts.

Variable json_dumps : value -> string.
Variable R : Remote.
Variable thread_id : value.
Variable run_id : string.

Local Abbreviation poll n := (runs_retrieve R n thread_id run_id).
Local Abbreviation turn := (iteration json_dumps R thread_id run_id).
Local Abbreviation loop_from := (generate_from json_dumps R thread_id run_id).
Local Abbreviation loop := (generate json_dumps R thread_id run_id).
Local Abbreviation idle := (pending_log thread_id run_id).
Local Abbreviation retrieve := (ECall (RunsRetrieve thread_id run_id)).

Lemma iteration_pending n status :
  poll n = Ok status → pending status →
  turn n = ([retrieve; ESleep 500], Ok Continue).
Proof.
  intros Hpoll [Hc Hf]. unfold iteration. run. rewrite Hpoll.
  apply String.eqb_neq in Hc, Hf. rewrite Hc, Hf. reflexivity.
Qed.

Lemma iteration_failed n :
  poll n = Ok "failed" →
  turn n = ([retrieve; EYield (sse_frame json_dumps (error_data thread_id))], Ok Break).
Proof.
  intros Hpoll. unfold iteration. run. rewrite Hpoll. reflexivity.
Qed.

Lemma iteration_completed_assistant n latest rest text blocks :
  poll n = Ok "completed" →
  messages_list R thread_id = Ok (latest :: rest) →
  role latest = "assistant" →
  content latest = TextBlock text :: blocks →
  turn n =
    ([retrieve; ECall (MessagesList thread_id);
      EYield (sse_frame json_dumps (response_data thread_id text))], Ok Break).
Proof.
  intros Hpoll Hlist Hrole Hcontent. unfold iteration. run.
  rewrite Hpoll. cbn. rewrite Hlist. unfold first, text_value. run.
  rewrite Hrole, Hcontent. reflexivity.
Qed.

Lemma iteration_completed_other n latest rest :
  poll n = Ok "completed" →
  messages_list R thread_id = Ok (latest :: rest) →
  role latest ≠ "assistant" →
  turn n = ([retrieve; ECall (MessagesList thread_id)], Ok Break).
Proof.
  intros Hpoll Hlist Hrole. unfold iteration. run.
  rewrite Hpoll. cbn. rewrite Hlist. unfold first. run.
  apply String.eqb_neq in Hrole. rewrite Hrole. reflexivity.
Qed.

(** An iteration either yields nothing, or ends with its only chunk, a
    frame around a dict whose last item is the thread id, and leaves the
    loop. *)
Lemma iteration_cases n :
  (∃ log r, turn n = (log, r) ∧ chunks log = []) ∨
  (∃ before key text,
     turn n =
       ((before ++ [EYield (sse_frame json_dumps
                              (VDict [(key, VStr text); ("thread_id", thread_id)]))])%list,
        Ok Break) ∧
     chunks before = []).
Proof.
  unfold iteration. run.
  destruct (poll n) as [status | e]; [| left; eauto].
  destruct (status =? "completed")%string.
  - destruct (messages_list R thread_id) as [[| latest rest] | e]; cbn;
      [left; eauto | | left; eauto].
    destruct (role latest =? "assistant")%string; [| left; eauto].
    destruct (content latest) as [| [text | kind] blocks]; cbn;
      [left; eauto | | left; eauto].
    right. exists [retrieve; ECall (MessagesList thread_id)], "content", text.
    split; reflexivity.
  - destruct (status =? "failed")%string; [| left; eauto].
    right. exists [retrieve], "error", "Assistant run failed". split; reflexivity.
Qed.

Lemma chunks_pending_log k : chunks (idle k) = [].
Proof. induction k as [| k IH]; [reflexivity | exact IH]. Qed.

Lemma calls_pending_log k :
  calls (idle k) = replicate k (RunsRetrieve thread_id run_id).
Proof. induction k as [| k IH]; [reflexivity |]. cbn. f_equal. exact IH. Qed.

Lemma pending_log_add j k : idle (j + k) = (idle j ++ idle k)%list.
Proof. induction j as [| j IH]; [reflexivity |]. cbn. rewrite IH. reflexivity. Qed.

(** [k] polls that find the run pending are [k] turns of the loop. *)
Lemma generate_from_pending k : ∀ n fuel,
  (∀ m, m < k → ∃ status, poll (n + m) = Ok status ∧ pending status) →
  loop_from (k + fuel) n =
    ((idle k ++ (loop_from fuel (n + k)).1)%list,
     (loop_from fuel (n + k)).2).
Proof.
  induction k as [| k IH]; intros n fuel Hpend.
  - cbn. rewrite Nat.add_0_r. destruct (loop_from fuel n); reflexivity.
  - destruct (Hpend 0 ltac:(lia)) as (status & Hpoll & Hst).
    rewrite Nat.add_0_r in Hpoll.
    cbn [Nat.add generate_from].
    rewrite (iteration_pending n status Hpoll Hst).
    rewrite (IH (S n) fuel).
    + replace (S n + k) with (n + S k) by lia. reflexivity.
    + intros m Hm. destruct (Hpend (S m) ltac:(lia)) as (s & Hs & Hp).
      exists s. split; [| exact Hp]. rewrite <- Hs. f_equal. lia.
Qed.

Lemma generate_from_break fuel n log :
  turn n = (log, Ok Break) → loop_from (S fuel) n = (log, Closed).
Proof. intros H. cbn [generate_from]. rewrite H. reflexivity. Qed.

(** The poll that ends the loop: [n] polls found the run pending and the
    next iteration leaves the loop with log [log]. *)
Lemma generate_after_pending n fuel log :
  (∀ m, m < n → ∃ status, poll m = Ok status ∧ pending status) →
  turn n = (log, Ok Break) →
  n < fuel →
  loop fuel = ((idle n ++ log)%list, Closed).
Proof.
  intros Hpend Hiter Hfuel. unfold generate.
  replace fuel with (n + S (fuel - S n)) by lia.
  rewrite generate_from_pending by exact Hpend.
  cbn [Nat.add]. rewrite (generate_from_break _ n log Hiter). reflexivity.
Qed.

(** A run that is never found terminal keeps the loop going. *)
Lemma generate_all_pending fuel :
  (∀ m, m < fuel → ∃ status, poll m = Ok status ∧ pending status) →
  loop fuel = (idle fuel, Polling).
Proof.
  intros Hpend. unfold generate.
  replace fuel with (fuel + 0) at 1 by lia.
  rewrite generate_from_pending by exact Hpend.
  cbn. rewrite app_nil_r. reflexivity.
Qed.

(** Shape of every log of the generator. *)
Lemma generate_from_shape fuel : ∀ n,
  chunks (loop_from fuel n).1 = [] ∨
  (∃ before key text,
     loop_from fuel n =
       ((before ++ [EYield (sse_frame json_dumps
                              (VDict [(key, VStr text); ("thread_id", thread_id)]))])%list,
        Closed) ∧
     chunks before = []).
Proof.
  induction fuel as [| fuel IH]; intros n; [left; reflexivity |].
  cbn [generate_from].
  destruct (iteration_cases n) as [(log & r & -> & Hlog) | (before & key & text & -> & Hb)].
  - destruct r as [[|] | e]; [left; exact Hlog | | left; exact Hlog].
    destruct (IH (S n)) as [Hnil | (before & key & text & Heq & Hb)].
    + left. destruct (loop_from fuel (S n)) as [log' st]. cbn [fst] in *.
      rewrite chunks_app, Hlog, Hnil. reflexivity.
    + right. exists (log ++ before)%list, key, text. rewrite Heq. split.
      * rewrite <- app_assoc. reflexivity.
      * rewrite chunks_app, Hlog, Hb. reflexivity.
  - right. exists before, key, text. split; [reflexivity | exact Hb].
Qed.

(** The poll at which an exception leaves the generator. *)
Lemma generate_after_pending_raise n fuel log e :
  (∀ m, m < n → ∃ status, poll m = Ok status ∧ pending status) →
  turn n = (log, Raise e) →
  n < fuel →
  loop fuel = ((idle n ++ log)%list, Failed e).
Proof.
  intros Hpend Hiter Hfuel. unfold generate.
  replace fuel with (n + S (fuel - S n)) by lia.
  rewrite generate_from_pending by exact Hpend.
  cbn [Nat.add generate_from]. rewrite Hiter. reflexivity.
Qed.

(** Once the generator has left the loop, more fuel changes nothing. *)
Lemma generate_from_stable fuel : ∀ n extra,
  (loop_from fuel n).2 ≠ Polling →
  loop_from (fuel + extra) n = loop_from fuel n.
Proof.
  induction fuel as [| fuel IH]; intros n extra Hstop; [cbn in Hstop; congruence |].
  cbn [Nat.add generate_from] in *.
  destruct (turn n) as [log [[|] | e]]; try reflexivity.
  specialize (IH (S n) extra).
  destruct (loop_from fuel (S n)) as [log' st]. cbn [snd] in *.
  rewrite (IH Hstop). reflexivity.
Qed.

(** A poll that finds a terminal status is the last one. *)
Lemma iteration_terminal n status :
  poll n = Ok status → terminal status → (turn n).2 ≠ Ok Continue.
Proof.
  intros Hpoll Hterm. unfold iteration. run. rewrite Hpoll.
  destruct Hterm as [-> | ->]; cbn.
  - destruct (messages_list R thread_id) as [[| latest rest] | e]; cbn; try discriminate.
    destruct (role latest =? "assistant")%string; [| discriminate].
    destruct (content latest) as [| [text | kind] blocks]; discriminate.
  - discriminate.
Qed.

Lemma generate_from_terminal n status :
  poll n = Ok status → terminal status → (loop_from 1 n).2 ≠ Polling.
Proof.
  intros Hpoll Hterm. pose proof (iteration_terminal n status Hpoll Hterm) as H.
  cbn [generate_from]. destruct (turn n) as [log [[|] | e]]; cbn in *; congruence.
Qed.

End GeneratorFacts.

(** Among the first [bound] statuses, either one is terminal and the ones
    before it are pending, or all are pending. *)
Lemma first_terminal (statuses : nat → string) (bound : nat) :
  (∃ n, n < bound ∧ terminal (statuses n) ∧ ∀ m, m < n → pending (statuses m)) ∨
  (∀ m, m < bound → pending (statuses m)).
Proof.
  induction bound as [| bound [(n & Hn & Ht & Hp) | Hall]].
  - right. intros m Hm. lia.
  - left. exists n. split; [lia | split; assumption].
  - destruct (terminal_dec (statuses bound)) as [Ht | Hp].
    + left. exists bound. split; [lia | split; assumption].
    + right. intros m Hm. destruct (decide (m = bound)) as [-> | Hne]; [exact Hp |].
      apply Hall. lia.
Qed.

(** A run found pending, pending, completed whose newest message is the
    assistant's but starts with an image block: [content[0].text] raises
    after the listing, so the stream carries no frame, however long it is
    run; the message does hold a text block, in second place. *)
Lemma generate_image_first_yields_nothing :
  runs_retrieve image_first_remote 0 (VStr "thread_7") "run_1" = Ok "queued" ∧
  runs_retrieve image_first_remote 1 (VStr "thread_7") "run_1" = Ok "in_progress" ∧
  runs_retrieve image_first_remote 2 (VStr "thread_7") "run_1" = Ok "completed" ∧
  (∃ latest rest,
     messages_list image_first_remote (VStr "thread_7") = Ok (latest :: rest) ∧
     role latest = "assistant" ∧
     content latest = [OtherBlock "ImageFileContentBlock"; TextBlock "See the chart."]) ∧
  generate dumps_ascii image_first_remote (VStr "thread_7") "run_1" 3 =
    ([ECall (RunsRetrieve (VStr "thread_7") "run_1"); ESleep 500;
      ECall (RunsRetrieve (VStr "thread_7") "run_1"); ESleep 500;
      ECall (RunsRetrieve (VStr "thread_7") "run_1");
      ECall (MessagesList (VStr "thread_7"))],
     Failed (Exn "AttributeError"
               "'ImageFileContentBlock' object has no attribute 'text'")) ∧
  (∀ fuel, chunks (generate dumps_ascii image_first_remote (VStr "thread_7") "run_1" fuel).1
           = []) ∧
  ¬ (∀ (json_dumps : value → string) (R : Remote) (thread_id : value) (run_id : string)
       (first_status second_status : string) (latest : message) (rest : list message),
       runs_retrieve R 0 thread_id run_id = Ok first_status → pending first_status →
       runs_retrieve R 1 thread_id run_id = Ok second_status → pending second_status →
       runs_retrieve R 2 thread_id run_id = Ok "completed" →
       messages_list R thread_id = Ok (latest :: rest) →
       role latest = "assistant" →
       ∃ fuel, length (chunks (generate json_dumps R thread_id run_id fuel).1) = 1).
Proof.
  assert (Hnone : ∀ fuel,
            chunks (generate dumps_ascii image_first_remote (VStr "thread_7") "run_1" fuel).1
            = []).
  { intros [| [| [| fuel]]]; reflexivity. }
  split; [reflexivity |]. split; [reflexivity |]. split; [reflexivity |].
  split; [eexists _, _; repeat split; reflexivity |].
  split; [reflexivity |]. split; [exact Hnone |].
  intros Hclaim.
  destruct (Hclaim dumps_ascii image_first_remote (VStr "thread_7") "run_1"
              "queued" "in_progress"
              {| role := "assistant";
                 content := [OtherBlock "ImageFileContentBlock";
                             TextBlock "See the chart."] |}
              [ {| role := "user"; content := [TextBlock "plot it"] |} ])
    as [fuel Hone]; try reflexivity; try (split; discriminate).
  rewrite Hnone in Hone. discriminate.
Qed.

(** C1 (amended): when the first two polls find the run pending and the
    third finds it completed, and the newest message of the thread is the
    assistant's and starts with a text block, the stream consists of three polls with a
    500 ms sleep after each of the first two, the listing of the messages,
    and then one frame carrying that text as [content] and the thread id as
    [thread_id]; after that the generator returns.  Before the third poll
    nothing has been yielded. *)
Theorem generate_pending_pending_completed
    (json_dumps : value → string) (R : Remote) (thread_id : value) (run_id : string)
    (first_status second_status : string) (latest : message) (rest : list message)
    (text : string) (blocks : list content_block) :
  runs_retrieve R 0 thread_id run_id = Ok first_status → pending first_status →
  runs_retrieve R 1 thread_id run_id = Ok second_status → pending second_status →
  runs_retrieve R 2 thread_id run_id = Ok "completed" →
  messages_list R thread_id = Ok (latest :: rest) →
  role latest = "assistant" →
  content latest = TextBlock text :: blocks →
  (∀ fuel, 3 ≤ fuel →
     generate json_dumps R thread_id run_id fuel =
       ([ECall (RunsRetrieve thread_id run_id); ESleep 500;
         ECall (RunsRetrieve thread_id run_id); ESleep 500;
         ECall (RunsRetrieve thread_id run_id); ECall (MessagesList thread_id);
         EYield ("data: "
                 +:+ json_dumps (VDict [("content", VStr text); ("thread_id", thread_id)])
                 +:+ LF +:+ LF)],
        Closed)) ∧
  (∀ fuel, fuel < 3 →
     chunks (generate json_dumps R thread_id run_id fuel).1 = [] ∧
     (generate json_dumps R thread_id run_id fuel).2 = Polling).
Proof.
  intros H0 P0 H1 P1 H2 Hlist Hrole Hcontent.
  assert (Hpend : ∀ m, m < 2 →
            ∃ status, runs_retrieve R m thread_id run_id = Ok status ∧ pending status).
  { intros m Hm. destruct m as [| [| m]]; [eauto | eauto | lia]. }
  split.
  - intros fuel Hfuel.
    rewrite (generate_after_pending json_dumps R thread_id run_id 2 fuel _ Hpend
               (iteration_completed_assistant json_dumps R thread_id run_id 2
                  latest rest text blocks H2 Hlist Hrole Hcontent)) by lia.
    reflexivity.
  - intros fuel Hfuel.
    rewrite (generate_all_pending json_dumps R thread_id run_id fuel).
    + split; [apply chunks_pending_log | reflexivity].
    + intros m Hm. apply Hpend. lia.
Qed.

Lemma generate_pending_pending_completed_witness :
  generate dumps_ascii demo_remote (VStr "thread_new") "run_1" 3 =
    ([ECall (RunsRetrieve (VStr "thread_new") "run_1"); ESleep 500;
      ECall (RunsRetrieve (VStr "thread_new") "run_1"); ESleep 500;
      ECall (RunsRetrieve (VStr "thread_new") "run_1");
      ECall (MessagesList (VStr "thread_new"));
      EYield ("data: "
              +:+ dumps_ascii (VDict [("content", VStr "Hello!");
                                      ("thread_id", VStr "thread_new")])
              +:+ LF +:+ LF)],
     Closed).
Proof.
  refine (proj1 (generate_pending_pending_completed dumps_ascii demo_remote
                   (VStr "thread_new") "run_1" "queued" "in_progress"
                   {| role := "assistant"; content := [TextBlock "Hello!"] |}
                   [ {| role := "user"; content := [TextBlock "hi"] |} ]
                   "Hello!" [] _ _ _ _ _ _ _ _) 3 _);
    try reflexivity; try (split; discriminate); lia.
Defined.

(** C2: when the first poll that does not find the run pending finds it
    failed, the stream is the pending polls, the failing poll, and one frame
    around [{"error": "Assistant run failed", "thread_id": thread_id}]; the
    generator then returns, so this is the whole stream. *)
Theorem generate_failed
    (json_dumps : value → string) (R : Remote) (thread_id : value) (run_id : string)
    (n : nat) :
  (∀ m, m < n →
     ∃ status, runs_retrieve R m thread_id run_id = Ok status ∧ pending status) →
  runs_retrieve R n thread_id run_id = Ok "failed" →
  ∀ fuel, n < fuel →
    generate json_dumps R thread_id run_id fuel =
      ((pending_log thread_id run_id n ++
        [ECall (RunsRetrieve thread_id run_id);
         EYield ("data: "
                 +:+ json_dumps (VDict [("error", VStr "Assistant run failed");
                                        ("thread_id", thread_id)])
                 +:+ LF +:+ LF)])%list,
       Closed) ∧
    chunks (generate json_dumps R thread_id run_id fuel).1 =
      ["data: "
       +:+ json_dumps (VDict [("error", VStr "Assistant run failed");
                              ("thread_id", thread_id)])
       +:+ LF +:+ LF].
Proof.
  intros Hpend Hfail fuel Hfuel.
  rewrite (generate_after_pending json_dumps R thread_id run_id n fuel _ Hpend
             (iteration_failed json_dumps R thread_id run_id n Hfail) Hfuel).
  split; [reflexivity |].
  cbn [fst]. rewrite chunks_app, chunks_pending_log. reflexivity.
Qed.

Lemma generate_failed_witness :
  generate dumps_ascii (with_polls (λ _, Ok "failed") demo_remote) (VStr "thread_7") "run_1" 1 =
    ([ECall (RunsRetrieve (VStr "thread_7") "run_1");
      EYield (sse_frame dumps_ascii (error_data (VStr "thread_7")))],
     Closed).
Proof.
  refine (proj1 (generate_failed dumps_ascii (with_polls (λ _, Ok "failed") demo_remote)
                   (VStr "thread_7") "run_1" 0 _ _ 1 _));
    [intros m Hm; lia | reflexivity | lia].
Defined.

(** C3: whatever the service answers, the generator yields at most one
    chunk; a chunk it yields is [data: ], the serialization of a dict, and
    two line feeds; it is the last event of the stream, the generator has
    returned, and running on changes nothing.  When the first non-pending
    status is completed and the newest message is not the assistant's, the
    generator returns having yielded nothing. *)
Theorem generate_at_most_one_frame
    (json_dumps : value → string) (R : Remote) (thread_id : value) (run_id : string)
    (fuel : nat) :
  length (chunks (generate json_dumps R thread_id run_id fuel).1) ≤ 1 ∧
  (∀ chunk, chunk ∈ chunks (generate json_dumps R thread_id run_id fuel).1 →
     (∃ items, chunk = "data: " +:+ json_dumps (VDict items) +:+ LF +:+ LF) ∧
     (∃ before, (generate json_dumps R thread_id run_id fuel).1
                  = (before ++ [EYield chunk])%list ∧
                chunks before = []) ∧
     (generate json_dumps R thread_id run_id fuel).2 = Closed ∧
     (∀ more, generate json_dumps R thread_id run_id (fuel + more)
              = generate json_dumps R thread_id run_id fuel)) ∧
  (∀ n latest rest,
     (∀ m, m < n →
        ∃ status, runs_retrieve R m thread_id run_id = Ok status ∧ pending status) →
     runs_retrieve R n thread_id run_id = Ok "completed" →
     messages_list R thread_id = Ok (latest :: rest) →
     role latest ≠ "assistant" →
     n < fuel →
     (generate json_dumps R thread_id run_id fuel).2 = Closed ∧
     chunks (generate json_dumps R thread_id run_id fuel).1 = []).
Proof.
  split; [| split].
  - unfold generate.
    destruct (generate_from_shape json_dumps R thread_id run_id fuel 0)
      as [-> | (before & key & text & -> & Hb)]; [cbn; lia |].
    cbn [fst]. rewrite chunks_app, Hb. cbn. lia.
  - intros chunk Hin. unfold generate in *.
    pose proof (generate_from_stable json_dumps R thread_id run_id fuel 0) as Hstable.
    destruct (generate_from_shape json_dumps R thread_id run_id fuel 0)
      as [Hnil | (before & key & text & Heq & Hb)].
    + rewrite Hnil in Hin. inversion Hin.
    + rewrite Heq in *. cbn [fst snd] in *.
      rewrite chunks_app, Hb in Hin. cbn in Hin.
      apply list_elem_of_singleton in Hin. subst chunk.
      split; [eexists; reflexivity |].
      split; [exists before; split; [reflexivity | exact Hb] |].
      split; [reflexivity |].
      intros more. apply Hstable. discriminate.
  - intros n latest rest Hpend Hdone Hlist Hrole Hfuel.
    rewrite (generate_after_pending json_dumps R thread_id run_id n fuel _ Hpend
               (iteration_completed_other json_dumps R thread_id run_id n
                  latest rest Hdone Hlist Hrole) Hfuel).
    split; [reflexivity |].
    cbn [fst]. rewrite chunks_app, chunks_pending_log. reflexivity.
Qed.

Lemma generate_at_most_one_frame_witness :
  (generate dumps_ascii
     (with_messages [ {| role := "user"; content := [TextBlock "hi"] |} ] demo_remote)
     (VStr "thread_7") "run_1" 3).2 = Closed ∧
  chunks (generate dumps_ascii
            (with_messages [ {| role := "user"; content := [TextBlock "hi"] |} ] demo_remote)
            (VStr "thread_7") "run_1" 3).1 = [].
Proof.
  refine (proj2 (proj2 (generate_at_most_one_frame dumps_ascii
                          (with_messages [ {| role := "user"; content := [TextBlock "hi"] |} ]
                             demo_remote)
                          (VStr "thread_7") "run_1" 3))
            2 {| role := "user"; content := [TextBlock "hi"] |} [] _ _ _ _ _);
    try reflexivity; [| discriminate | lia].
  intros m Hm. destruct m as [| [| m]]; [| | lia].
  - exists "queued". split; [reflexivity | split; discriminate].
  - exists "in_progress". split; [reflexivity | split; discriminate].
Defined.

(** C4: when every poll returns a status, the generator leaves the loop if
    and only if some status is "completed" or "failed"; when no status is
    one of these two, it is still polling after any number of iterations,
    having made that many polls and yielded nothing. *)
Theorem generate_terminates_iff
    (json_dumps : value → string) (R : Remote) (thread_id : value) (run_id : string)
    (statuses : nat → string) :
  (∀ n, runs_retrieve R n thread_id run_id = Ok (statuses n)) →
  ((∃ fuel, (generate json_dumps R thread_id run_id fuel).2 ≠ Polling) ↔
   (∃ n, terminal (statuses n))) ∧
  ((∀ n, pending (statuses n)) →
   ∀ fuel,
     (generate json_dumps R thread_id run_id fuel).2 = Polling ∧
     chunks (generate json_dumps R thread_id run_id fuel).1 = [] ∧
     calls (generate json_dumps R thread_id run_id fuel).1
       = replicate fuel (RunsRetrieve thread_id run_id)).
Proof.
  intros Hpoll.
  assert (Hidle : ∀ fuel, (∀ m, m < fuel → pending (statuses m)) →
            generate json_dumps R thread_id run_id fuel
              = (pending_log thread_id run_id fuel, Polling)).
  { intros fuel Hall. apply generate_all_pending. intros m Hm. eauto. }
  split; [split |].
  - intros [fuel Hstop].
    destruct (first_terminal statuses fuel) as [(n & _ & Ht & _) | Hall]; [eauto |].
    rewrite (Hidle fuel Hall) in Hstop. cbn in Hstop. congruence.
  - intros [n Ht].
    destruct (first_terminal statuses (S n)) as [(k & _ & Hk & Hbefore) | Hall].
    + exists (k + 1). unfold generate.
      rewrite generate_from_pending by (intros m Hm; cbn; eauto).
      cbn [snd Nat.add]. eapply generate_from_terminal; [apply Hpoll | exact Hk].
    + exfalso. apply (proj1 (pending_not_terminal _) (Hall n ltac:(lia))). exact Ht.
  - intros Hall fuel. rewrite (Hidle fuel) by (intros m _; apply Hall).
    cbn [fst snd].
    split; [reflexivity | split; [apply chunks_pending_log | apply calls_pending_log]].
Qed.

Lemma generate_terminates_iff_witness :
  (generate dumps_ascii (with_polls (λ _, Ok "cancelled") demo_remote)
     (VStr "thread_new") "run_1" 7).2 = Polling ∧
  chunks (generate dumps_ascii (with_polls (λ _, Ok "cancelled") demo_remote)
            (VStr "thread_new") "run_1" 7).1 = [] ∧
  calls (generate dumps_ascii (with_polls (λ _, Ok "cancelled") demo_remote)
           (VStr "thread_new") "run_1" 7).1
    = replicate 7 (RunsRetrieve (VStr "thread_new") "run_1").
Proof.
  refine (proj2 (generate_terminates_iff dumps_ascii
                   (with_polls (λ _, Ok "cancelled") demo_remote)
                   (VStr "thread_new") "run_1" (λ _, "cancelled") _) _ 7).
  - intros n. reflexivity.
  - intros n. split; discriminate.
Defined.

(** Every chunk of the stream is a frame around a two-item dict whose
    second item is the thread id the generator closed over. *)
Lemma generate_chunk_thread_id
    (json_dumps : value → string) (R : Remote) (thread_id : value) (run_id : string)
    (fuel : nat) (chunk : string) :
  chunk ∈ chunks (generate json_dumps R thread_id run_id fuel).1 →
  ∃ key text,
    chunk = sse_frame json_dumps (VDict [(key, VStr text); ("thread_id", thread_id)]).
Proof.
  unfold generate. intros Hin.
  destruct (generate_from_shape json_dumps R thread_id run_id fuel 0)
    as [Hnil | (before & key & text & Heq & Hb)].
  - rewrite Hnil in Hin. inversion Hin.
  - rewrite Heq in Hin. cbn [fst] in Hin. rewrite chunks_app, Hb in Hin.
    apply list_elem_of_singleton in Hin. eauto.
Qed.

(** ** The [/chat] view *)

(** [chat] on a dict body, in terms of the answers of the three calls. *)
Lemma chat_dict (R : Remote) (ASSISTANT_ID : string) (items : list (string * value)) :
  let message := default (VStr "") (assoc "message" items) in
  let supplied := default VNone (assoc "thread_id" items) in
  let setup (thread_id : value) : M view_return :=
    match messages_create R thread_id "user" message with
    | Ok _ =>
        match runs_create R thread_id ASSISTANT_ID with
        | Ok run =>
            ([ECall (MessagesCreate thread_id "user" message);
              ECall (RunsCreate thread_id ASSISTANT_ID)],
             Ok (RetStream thread_id run "text/event-stream"))
        | Raise e =>
            ([ECall (MessagesCreate thread_id "user" message);
              ECall (RunsCreate thread_id ASSISTANT_ID)],
             Ok (RetDictStatus (error_body (str e)) 500))
        end
    | Raise e =>
        ([ECall (MessagesCreate thread_id "user" message)],
         Ok (RetDictStatus (error_body (str e)) 500))
    end in
  chat R ASSISTANT_ID (Ok (VDict items)) =
    if truthy supplied then setup supplied
    else match threads_create R with
         | Ok new_id => (ECall ThreadsCreate :: (setup (VStr new_id)).1,
                         (setup (VStr new_id)).2)
         | Raise e => ([ECall ThreadsCreate], Ok (RetDictStatus (error_body (str e)) 500))
         end.
Proof.
  intros message supplied setup. unfold chat, lift, get. run. cbn [default].
  fold message supplied. subst setup. cbn beta.
  destruct (truthy supplied); cbn [negb].
  - destruct (messages_create R supplied "user" message); [| reflexivity].
    destruct (runs_create R supplied ASSISTANT_ID); reflexivity.
  - destruct (threads_create R) as [new_id | e]; [| reflexivity].
    destruct (messages_create R (VStr new_id) "user" message); [| reflexivity].
    destruct (runs_create R (VStr new_id) ASSISTANT_ID); reflexivity.
Qed.

(** A body for which [thread_id] is present but empty: a thread is created
    and its id, not the supplied value, reaches the frame. *)
Lemma chat_empty_thread_id_creates_thread :
  assoc "thread_id" [("message", VStr "hi"); ("thread_id", VStr "")] = Some (VStr "") ∧
  chat demo_remote "asst_1" (Ok (VDict [("message", VStr "hi"); ("thread_id", VStr "")])) =
    ([ECall ThreadsCreate;
      ECall (MessagesCreate (VStr "thread_new") "user" (VStr "hi"));
      ECall (RunsCreate (VStr "thread_new") "asst_1")],
     Ok (RetStream (VStr "thread_new") "run_1" "text/event-stream")) ∧
  count_calls is_threads_create
    (chat demo_remote "asst_1"
       (Ok (VDict [("message", VStr "hi"); ("thread_id", VStr "")]))).1 = 1 ∧
  chunks (generate dumps_ascii demo_remote (VStr "thread_new") "run_1" 3).1 =
    [sse_frame dumps_ascii
       (VDict [("content", VStr "Hello!"); ("thread_id", VStr "thread_new")])] ∧
  ¬ (∀ (R : Remote) (ASSISTANT_ID : string) (items : list (string * value)) supplied,
       assoc "thread_id" items = Some supplied →
       count_calls is_threads_create (chat R ASSISTANT_ID (Ok (VDict items))).1 = 0 ∧
       ∀ thread_id run mime,
         (chat R ASSISTANT_ID (Ok (VDict items))).2 = Ok (RetStream thread_id run mime) →
         thread_id = supplied).
Proof.
  split; [reflexivity |]. split; [reflexivity |]. split; [reflexivity |].
  split; [vm_compute; reflexivity |].
  intros Hclaim.
  destruct (Hclaim demo_remote "asst_1"
              [("message", VStr "hi"); ("thread_id", VStr "")] (VStr "") eq_refl)
    as [Hcount _].
  vm_compute in Hcount. discriminate.
Qed.

(** C5 (amended): for a dict body whose [thread_id] is absent or falsy
    ([None], the empty string, ...), exactly one thread-creation call is
    made, and every frame of the resulting stream carries the id of the new
    thread; for a dict body whose [thread_id] is truthy, no thread-creation
    call is made and every frame carries the supplied value. *)
Theorem chat_thread_id
    (json_dumps : value → string) (R : Remote) (ASSISTANT_ID : string)
    (items : list (string * value)) :
  let supplied := default VNone (assoc "thread_id" items) in
  let outcome := chat R ASSISTANT_ID (Ok (VDict items)) in
  (truthy supplied = false →
     count_calls is_threads_create outcome.1 = 1 ∧
     ∀ thread_id run mime, outcome.2 = Ok (RetStream thread_id run mime) →
       ∃ new_id, threads_create R = Ok new_id ∧ thread_id = VStr new_id ∧
         ∀ fuel chunk, chunk ∈ chunks (generate json_dumps R thread_id run fuel).1 →
           ∃ key text,
             chunk = sse_frame json_dumps
                       (VDict [(key, VStr text); ("thread_id", VStr new_id)])) ∧
  (truthy supplied = true →
     count_calls is_threads_create outcome.1 = 0 ∧
     ∀ thread_id run mime, outcome.2 = Ok (RetStream thread_id run mime) →
       thread_id = supplied ∧
       ∀ fuel chunk, chunk ∈ chunks (generate json_dumps R thread_id run fuel).1 →
         ∃ key text,
           chunk = sse_frame json_dumps
                     (VDict [(key, VStr text); ("thread_id", supplied)])).
Proof.
  intros supplied outcome. subst outcome.
  pose proof (chat_dict R ASSISTANT_ID items) as Hchat. cbv zeta in Hchat.
  fold supplied in Hchat. rewrite Hchat. clear Hchat.
  set (message := default (VStr "") (assoc "message" items)).
  split; intros Htruthy; rewrite Htruthy.
  - destruct (threads_create R) as [new_id | e].
    + destruct (messages_create R (VStr new_id) "user" message);
        [destruct (runs_create R (VStr new_id) ASSISTANT_ID) |];
        (split; [reflexivity |]); cbn [snd]; intros thread_id run mime Hret;
        try discriminate.
      injection Hret as <- <- <-. exists new_id.
      split; [reflexivity | split; [reflexivity |]].
      intros fuel chunk. apply generate_chunk_thread_id.
    + split; [reflexivity |]. cbn [snd]. discriminate.
  - destruct (messages_create R supplied "user" message);
      [destruct (runs_create R supplied ASSISTANT_ID) |];
      (split; [reflexivity |]); cbn [snd]; intros thread_id run mime Hret;
      try discriminate.
    injection Hret as <- <- <-. split; [reflexivity |].
    intros fuel chunk. apply generate_chunk_thread_id.
Qed.

Lemma chat_thread_id_witness :
  count_calls is_threads_create
    (chat demo_remote "asst_1" (Ok (VDict [("message", VStr "hi")]))).1 = 1 ∧
  count_calls is_threads_create
    (chat demo_remote "asst_1"
       (Ok (VDict [("message", VStr "hi"); ("thread_id", VStr "thread_7")]))).1 = 0.
Proof.
  split.
  - apply (proj1 (chat_thread_id dumps_ascii demo_remote "asst_1" [("message", VStr "hi")])).
    reflexivity.
  - apply (proj2 (chat_thread_id dumps_ascii demo_remote "asst_1"
                    [("message", VStr "hi"); ("thread_id", VStr "thread_7")])).
    reflexivity.
Defined.

(** Exceptions raised while the body is read leave [chat]: the two
    [data.get] calls and [request.json] stand before the [try]. *)
Lemma chat_body_errors_propagate :
  chat demo_remote "asst_1" (Ok (VList [])) =
    ([], Raise (Exn "AttributeError" "'list' object has no attribute 'get'")) ∧
  chat demo_remote "asst_1" (Ok VNone) =
    ([], Raise (Exn "AttributeError" "'NoneType' object has no attribute 'get'")) ∧
  chat demo_remote "asst_1" (Raise (Exn "BadRequest" "400 Bad Request")) =
    ([], Raise (Exn "BadRequest" "400 Bad Request")) ∧
  ¬ (∀ (R : Remote) (ASSISTANT_ID : string) (request_json : result value),
       (∃ thread_id run mime,
          (chat R ASSISTANT_ID request_json).2 = Ok (RetStream thread_id run mime)) ∨
       (∃ text,
          (chat R ASSISTANT_ID request_json).2
            = Ok (RetDictStatus (VDict [("error", VStr text)]) 500))).
Proof.
  split; [reflexivity |]. split; [reflexivity |]. split; [reflexivity |].
  intros Hclaim.
  destruct (Hclaim demo_remote "asst_1" (Ok (VList [])))
    as [(thread_id & run & mime & H) | (text & H)]; discriminate H.
Qed.

(** C7 (amended): for a dict body, [chat] never lets an exception out: an
    exception raised by the thread-creation, message-creation or
    run-creation call is answered with status 500 and the body
    [{"error": str(e)}]. *)
Theorem chat_setup_exceptions_caught
    (R : Remote) (ASSISTANT_ID : string) (items : list (string * value)) (e : exn) :
  let message := default (VStr "") (assoc "message" items) in
  let supplied := default VNone (assoc "thread_id" items) in
  let outcome := (chat R ASSISTANT_ID (Ok (VDict items))).2 in
  let reported := Ok (RetDictStatus (VDict [("error", VStr (str e))]) 500) in
  (truthy supplied = false → threads_create R = Raise e → outcome = reported) ∧
  (∀ thread_id,
     (truthy supplied = true ∧ thread_id = supplied) ∨
     (truthy supplied = false ∧ ∃ new_id, threads_create R = Ok new_id ∧
                                          thread_id = VStr new_id) →
     (messages_create R thread_id "user" message = Raise e → outcome = reported) ∧
     (messages_create R thread_id "user" message = Ok () →
      runs_create R thread_id ASSISTANT_ID = Raise e → outcome = reported)) ∧
  (∃ r, outcome = Ok r).
Proof.
  intros message supplied outcome reported. subst outcome reported.
  pose proof (chat_dict R ASSISTANT_ID items) as Hchat. cbv zeta in Hchat.
  fold supplied message in Hchat. rewrite Hchat. clear Hchat.
  split; [| split].
  - intros -> ->. reflexivity.
  - intros thread_id [[-> ->] | [-> (new_id & -> & ->)]]; cbn [snd];
      (split; [intros -> | intros -> ->]); reflexivity.
  - destruct (truthy supplied).
    + destruct (messages_create R supplied "user" message);
        [destruct (runs_create R supplied ASSISTANT_ID) |]; eauto.
    + destruct (threads_create R) as [new_id | e']; [| eauto].
      destruct (messages_create R (VStr new_id) "user" message);
        [destruct (runs_create R (VStr new_id) ASSISTANT_ID) |]; cbn; eauto.
Qed.

Lemma chat_setup_exceptions_caught_witness :
  (chat (without_threads connection_error demo_remote) "asst_1"
     (Ok (VDict [("message", VStr "hi")]))).2 =
    Ok (RetDictStatus (VDict [("error", VStr "Connection error.")]) 500).
Proof.
  apply (proj1 (chat_setup_exceptions_caught (without_threads connection_error demo_remote)
                  "asst_1" [("message", VStr "hi")] connection_error));
    reflexivity.
Defined.

(** ** The [/upload] view *)

Lemma upload_file_run (R : Remote) (ASSISTANT_ID : string)
    (files : list (string * FileStorage)) (file : FileStorage) (file_id : string) :
  assoc "file" files = Some file →
  files_create R (stream file) "assistants" = Ok file_id →
  assistants_update R ASSISTANT_ID [file_id] = Ok () →
  upload_file R ASSISTANT_ID files =
    ([ECall (FilesCreate (stream file) "assistants");
      ECall (AssistantsUpdate ASSISTANT_ID [file_id])],
     Ok (RetDict (VDict [("file_id", VStr file_id)]))).
Proof.
  intros Hfile Hcreate Hupdate.
  unfold upload_file, files_contains, files_getitem. rewrite Hfile. run.
  rewrite Hcreate, Hupdate. reflexivity.
Qed.

(** C8: when the form has a field [file] and the upload and the assistant
    update succeed, the view makes exactly two calls: the upload of the
    file's stream, whose answer is the id, and then one update attaching
    that id to the provisioned assistant; it returns [{"file_id": id}] with
    status 200. *)
Theorem upload_file_success (R : Remote) (ASSISTANT_ID : string)
    (files : list (string * FileStorage)) (file : FileStorage) (file_id : string) :
  assoc "file" files = Some file →
  files_create R (stream file) "assistants" = Ok file_id →
  assistants_update R ASSISTANT_ID [file_id] = Ok () →
  upload_file R ASSISTANT_ID files =
    ([ECall (FilesCreate (stream file) "assistants");
      ECall (AssistantsUpdate ASSISTANT_ID [file_id])],
     Ok (RetDict (VDict [("file_id", VStr file_id)]))) ∧
  (∃ response,
     (upload_file R ASSISTANT_ID files).2 = Ok response ∧
     response = RetDict (VDict [("file_id", VStr file_id)]) ∧
     status_code response = 200) ∧
  calls (upload_file R ASSISTANT_ID files).1 =
    [FilesCreate (stream file) "assistants"; AssistantsUpdate ASSISTANT_ID [file_id]] ∧
  List.filter is_assistants_update (calls (upload_file R ASSISTANT_ID files).1)
    = [AssistantsUpdate ASSISTANT_ID [file_id]] ∧
  count_calls is_assistants_update (upload_file R ASSISTANT_ID files).1 = 1 ∧
  count_calls is_files_create (upload_file R ASSISTANT_ID files).1 = 1.
Proof.
  intros Hfile Hcreate Hupdate.
  rewrite (upload_file_run R ASSISTANT_ID files file file_id Hfile Hcreate Hupdate).
  split; [reflexivity |]. split; [eexists; repeat split; reflexivity |].
  repeat split; reflexivity.
Qed.

Lemma upload_file_success_witness :
  upload_file demo_remote "asst_1" [("file", demo_file)] =
    ([ECall (FilesCreate [Byte.x68; Byte.x69] "assistants");
      ECall (AssistantsUpdate "asst_1" ["file_1"])],
     Ok (RetDict (VDict [("file_id", VStr "file_1")]))).
Proof.
  apply (upload_file_success demo_remote "asst_1" [("file", demo_file)] demo_file "file_1");
    reflexivity.
Defined.

(** C9: when the form has no field [file], the view returns
    [{"error": "No file provided"}] with status 400 and calls nothing. *)
Theorem upload_file_missing (R : Remote) (ASSISTANT_ID : string)
    (files : list (string * FileStorage)) :
  assoc "file" files = None →
  upload_file R ASSISTANT_ID files =
    ([], Ok (RetDictStatus (VDict [("error", VStr "No file provided")]) 400)) ∧
  calls (upload_file R ASSISTANT_ID files).1 = [] ∧
  status_code (RetDictStatus (VDict [("error", VStr "No file provided")]) 400) = 400.
Proof.
  intros Hfile. unfold upload_file, files_contains. rewrite Hfile.
  repeat split; reflexivity.
Qed.

Lemma upload_file_missing_witness :
  upload_file demo_remote "asst_1" [("attachment", demo_file)] =
    ([], Ok (RetDictStatus (VDict [("error", VStr "No file provided")]) 400)) ∧
  calls (upload_file demo_remote "asst_1" [("attachment", demo_file)]).1 = [] ∧
  status_code (RetDictStatus (VDict [("error", VStr "No file provided")]) 400) = 400.
Proof.
  apply (upload_file_missing demo_remote "asst_1" [("attachment", demo_file)]).
  reflexivity.
Defined.

(** C10: a successful upload passes [file_ids = [id]], the one-element list
    of the new file's id, to its single [assistants.update] call; no other
    id is in it, and on the service the assistant's attachments, whatever
    they were, become that list. *)
Theorem upload_file_replaces_attachments (R : Remote) (ASSISTANT_ID : string)
    (files : list (string * FileStorage)) (file : FileStorage) (file_id : string)
    (attached : gmap string (list string)) :
  assoc "file" files = Some file →
  files_create R (stream file) "assistants" = Ok file_id →
  assistants_update R ASSISTANT_ID [file_id] = Ok () →
  List.filter is_assistants_update (calls (upload_file R ASSISTANT_ID files).1)
    = [AssistantsUpdate ASSISTANT_ID [file_id]] ∧
  (∀ earlier, earlier ≠ file_id → earlier ∉ [file_id]) ∧
  replay (upload_file R ASSISTANT_ID files).1 attached !! ASSISTANT_ID = Some [file_id].
Proof.
  intros Hfile Hcreate Hupdate.
  rewrite (upload_file_run R ASSISTANT_ID files file file_id Hfile Hcreate Hupdate).
  split; [reflexivity | split].
  - intros earlier Hne Hin. apply list_elem_of_singleton in Hin. contradiction.
  - unfold replay. cbn. apply lookup_insert_eq.
Qed.

(** Two uploads in a row: the assistant ends with the second file only. *)
Lemma upload_file_replaces_attachments_witness :
  replay (upload_file (with_upload (Ok "file_2") demo_remote) "asst_1" [("file", demo_file)]).1
    (replay (upload_file demo_remote "asst_1" [("file", demo_file)]).1 ∅)
    !! "asst_1" = Some ["file_2"].
Proof.
  apply (upload_file_replaces_attachments (with_upload (Ok "file_2") demo_remote) "asst_1"
           [("file", demo_file)] demo_file "file_2"); reflexivity.
Defined.

(** ** Paths on which an exception ends the stream or the upload *)

(** A poll that raises ends the generator with that exception; nothing has
    been yielded. *)
Lemma generate_poll_raises
    (json_dumps : value → string) (R : Remote) (thread_id : value) (run_id : string)
    (n fuel : nat) (e : exn) :
  (∀ m, m < n →
     ∃ status, runs_retrieve R m thread_id run_id = Ok status ∧ pending status) →
  runs_retrieve R n thread_id run_id = Raise e →
  n < fuel →
  generate json_dumps R thread_id run_id fuel =
    ((pending_log thread_id run_id n ++ [ECall (RunsRetrieve thread_id run_id)])%list,
     Failed e) ∧
  chunks (generate json_dumps R thread_id run_id fuel).1 = [].
Proof.
  intros Hpend Hraise Hfuel.
  assert (Hiter : iteration json_dumps R thread_id run_id n
                  = ([ECall (RunsRetrieve thread_id run_id)], Raise e)).
  { unfold iteration. run. rewrite Hraise. reflexivity. }
  rewrite (generate_after_pending_raise json_dumps R thread_id run_id n fuel _ e
             Hpend Hiter Hfuel).
  split; [reflexivity |]. cbn [fst]. rewrite chunks_app, chunks_pending_log. reflexivity.
Qed.

Lemma generate_poll_raises_witness :
  generate dumps_ascii
    (with_polls (λ n, match n with 0 => Ok "queued" | _ => Raise connection_error end)
       demo_remote)
    (VStr "thread_7") "run_1" 2 =
    ([ECall (RunsRetrieve (VStr "thread_7") "run_1"); ESleep 500;
      ECall (RunsRetrieve (VStr "thread_7") "run_1")],
     Failed connection_error).
Proof.
  refine (proj1 (generate_poll_raises dumps_ascii
                   (with_polls (λ n, match n with 0 => Ok "queued"
                                               | _ => Raise connection_error end)
                      demo_remote)
                   (VStr "thread_7") "run_1" 1 2 connection_error _ _ _)).
  - intros m Hm. exists "queued". destruct m; [| lia].
    split; [reflexivity | split; discriminate].
  - reflexivity.
  - lia.
Defined.

(** A completed run whose newest message is the assistant's but does not
    start with a text block: [content[0].text] raises and nothing is
    yielded. *)
Lemma generate_completed_without_text
    (json_dumps : value → string) (R : Remote) (thread_id : value) (run_id : string)
    (n fuel : nat) (latest : message) (rest : list message) :
  (∀ m, m < n →
     ∃ status, runs_retrieve R m thread_id run_id = Ok status ∧ pending status) →
  runs_retrieve R n thread_id run_id = Ok "completed" →
  messages_list R thread_id = Ok (latest :: rest) →
  role latest = "assistant" →
  n < fuel →
  (content latest = [] →
     generate json_dumps R thread_id run_id fuel =
       ((pending_log thread_id run_id n ++
         [ECall (RunsRetrieve thread_id run_id); ECall (MessagesList thread_id)])%list,
        Failed IndexError)) ∧
  (∀ kind blocks, content latest = OtherBlock kind :: blocks →
     generate json_dumps R thread_id run_id fuel =
       ((pending_log thread_id run_id n ++
         [ECall (RunsRetrieve thread_id run_id); ECall (MessagesList thread_id)])%list,
        Failed (AttributeError kind "text"))).
Proof.
  intros Hpend Hdone Hlist Hrole Hfuel. split.
  - intros Hcontent.
    apply generate_after_pending_raise; [exact Hpend | | exact Hfuel].
    unfold iteration. run. rewrite Hdone. cbn. rewrite Hlist. unfold first. run.
    rewrite Hrole, Hcontent. reflexivity.
  - intros kind blocks Hcontent.
    apply generate_after_pending_raise; [exact Hpend | | exact Hfuel].
    unfold iteration. run. rewrite Hdone. cbn. rewrite Hlist. unfold first, text_value. run.
    rewrite Hrole, Hcontent. reflexivity.
Qed.

Lemma generate_completed_without_text_witness :
  generate dumps_ascii
    (with_messages [ {| role := "assistant"; content := [OtherBlock "ImageFileContentBlock"] |} ]
       demo_remote)
    (VStr "thread_7") "run_1" 3 =
    ([ECall (RunsRetrieve (VStr "thread_7") "run_1"); ESleep 500;
      ECall (RunsRetrieve (VStr "thread_7") "run_1"); ESleep 500;
      ECall (RunsRetrieve (VStr "thread_7") "run_1");
      ECall (MessagesList (VStr "thread_7"))],
     Failed (AttributeError "ImageFileContentBlock" "text")).
Proof.
  refine (proj2 (generate_completed_without_text dumps_ascii
                   (with_messages
                      [ {| role := "assistant";
                           content := [OtherBlock "ImageFileContentBlock"] |} ]
                      demo_remote)
                   (VStr "thread_7") "run_1" 2 3
                   {| role := "assistant"; content := [OtherBlock "ImageFileContentBlock"] |}
                   [] _ _ _ _ _) "ImageFileContentBlock" [] _);
    try reflexivity; [| lia].
  intros m Hm. destruct m as [| [| m]]; [| | lia].
  - exists "queued". split; [reflexivity | split; discriminate].
  - exists "in_progress". split; [reflexivity | split; discriminate].
Defined.

(** A failing upload or update call is answered with status 500 and the
    exception's text. *)
Lemma upload_file_remote_failure (R : Remote) (ASSISTANT_ID : string)
    (files : list (string * FileStorage)) (file : FileStorage) (e : exn) :
  assoc "file" files = Some file →
  (files_create R (stream file) "assistants" = Raise e →
     upload_file R ASSISTANT_ID files =
       ([ECall (FilesCreate (stream file) "assistants")],
        Ok (RetDictStatus (VDict [("error", VStr (str e))]) 500))) ∧
  (∀ file_id, files_create R (stream file) "assistants" = Ok file_id →
     assistants_update R ASSISTANT_ID [file_id] = Raise e →
     upload_file R ASSISTANT_ID files =
       ([ECall (FilesCreate (stream file) "assistants");
         ECall (AssistantsUpdate ASSISTANT_ID [file_id])],
        Ok (RetDictStatus (VDict [("error", VStr (str e))]) 500))).
Proof.
  intros Hfile. split.
  - intros Hcreate. unfold upload_file, files_contains, files_getitem.
    rewrite Hfile. run. rewrite Hcreate. reflexivity.
  - intros file_id Hcreate Hupdate. unfold upload_file, files_contains, files_getitem.
    rewrite Hfile. run. rewrite Hcreate, Hupdate. reflexivity.
Qed.

Lemma upload_file_remote_failure_witness :
  upload_file (with_upload (Raise connection_error) demo_remote) "asst_1"
    [("file", demo_file)] =
    ([ECall (FilesCreate (stream demo_file) "assistants")],
     Ok (RetDictStatus (VDict [("error", VStr "Connection error.")]) 500)).
Proof.
  apply (proj1 (upload_file_remote_failure
                  (with_upload (Raise connection_error) demo_remote) "asst_1"
                  [("file", demo_file)] demo_file connection_error eq_refl)).
  reflexivity.
Defined.

(** ** The wire text of the two frames, with the ASCII serializer *)

Example error_frame_wire :
  sse_frame dumps_ascii (error_data (VStr "thread_7")) =
    "data: {" +:+ DQUOTE +:+ "error" +:+ DQUOTE +:+ ": "
    +:+ DQUOTE +:+ "Assistant run failed" +:+ DQUOTE +:+ ", "
    +:+ DQUOTE +:+ "thread_id" +:+ DQUOTE +:+ ": "
    +:+ DQUOTE +:+ "thread_7" +:+ DQUOTE +:+ "}" +:+ LF +:+ LF.
Proof. reflexivity. Qed.

Example delete_is_escaped :
  escape_char (ascii_of_nat 127) = BACKSLASH +:+ "u007f".
Proof. reflexivity. Qed.

Example content_frame_wire :
  sse_frame dumps_ascii (response_data (VStr "thread_7") ("Hi" +:+ LF)) =
    "data: {" +:+ DQUOTE +:+ "content" +:+ DQUOTE +:+ ": "
    +:+ DQUOTE +:+ "Hi" +:+ BACKSLASH +:+ "n" +:+ DQUOTE +:+ ", "
    +:+ DQUOTE +:+ "thread_id" +:+ DQUOTE +:+ ": "
    +:+ DQUOTE +:+ "thread_7" +:+ DQUOTE +:+ "}" +:+ LF +:+ LF.
Proof. reflexivity. Qed.

(** ** Polls, sleeps and calls of the generator *)

Lemma sleeps_app (l1 l2 : list event) : sleeps (l1 ++ l2) = (sleeps l1 ++ sleeps l2)%list.
Proof. apply omap_app. Qed.

Lemma sum_list_replicate (k x : nat) : sum_list (replicate k x) = k * x.
Proof. induction k as [| k IH]; [reflexivity |]. cbn. rewrite IH. lia. Qed.

Section GeneratorCalls.

Variable json_dumps : value -> string.
Variable R : Remote.
Variable thread_id : value.
Variable run_id : string.

Local Abbreviation poll n := (runs_retrieve R n thread_id run_id).
Local Abbreviation turn := (iteration json_dumps R thread_id run_id).
Local Abbreviation loop_from := (generate_from json_dumps R thread_id run_id).
Local Abbreviation loop := (generate json_dumps R thread_id run_id).
Local Abbreviation idle := (pending_log thread_id run_id).
Local Abbreviation retrieve := (ECall (RunsRetrieve thread_id run_id)).

Lemma sleeps_pending_log k : sleeps (idle k) = replicate k 500.
Proof. induction k as [| k IH]; [reflexivity |]. cbn. f_equal. exact IH. Qed.

Lemma last_turn_tail_sleeps tail : last_turn_tail thread_id tail → sleeps tail = [].
Proof. intros [-> | [[c ->] | [-> | [c ->]]]]; reflexivity. Qed.

Lemma last_turn_tail_calls tail :
  last_turn_tail thread_id tail →
  calls tail = [] ∨ calls tail = [MessagesList thread_id].
Proof. intros [-> | [[c ->] | [-> | [c ->]]]]; cbn; auto. Qed.

(** An iteration polls and then either sleeps and goes round again, or
    leaves the loop after at most a listing and a frame. *)
Lemma iteration_shape n :
  turn n = ([retrieve; ESleep 500], Ok Continue) ∨
  (∃ tail r, turn n = (retrieve :: tail, r) ∧ r ≠ Ok Continue ∧
             last_turn_tail thread_id tail).
Proof.
  unfold iteration, last_turn_tail. run.
  destruct (poll n) as [status | e]; [| right; eexists _, _; split; [reflexivity |]; split; [discriminate | auto]].
  destruct (status =? "completed")%string.
  - right.
    destruct (messages_list R thread_id) as [[| latest rest] | e]; cbn;
      try (eexists _, _; split; [reflexivity |]; split; [discriminate | auto]).
    destruct (role latest =? "assistant")%string;
      [| eexists _, _; split; [reflexivity |]; split; [discriminate | auto]].
    destruct (content latest) as [| [text | kind] blocks]; cbn;
      eexists _, _; (split; [reflexivity |]); (split; [discriminate |]); eauto 6.
  - destruct (status =? "failed")%string; [| left; reflexivity].
    right. eexists _, _. split; [reflexivity |]. split; [discriminate | eauto].
Qed.

(** Every run of the loop is a number of pending iterations, followed, once
    the loop has been left, by the last poll and its tail. *)
Lemma generate_from_decompose fuel : ∀ n,
  loop_from fuel n = (idle fuel, Polling) ∨
  (∃ k tail st,
     k < fuel ∧
     loop_from fuel n = ((idle k ++ retrieve :: tail)%list, st) ∧
     st ≠ Polling ∧ last_turn_tail thread_id tail).
Proof.
  induction fuel as [| fuel IH]; intros n; [left; reflexivity |].
  cbn [generate_from].
  destruct (iteration_shape n) as [-> | (tail & r & -> & Hr & Htail)].
  - destruct (IH (S n)) as [-> | (k & tail & st & Hk & -> & Hst & Htail)].
    + left. reflexivity.
    + right. exists (S k), tail, st. split; [lia |]. split; [reflexivity | auto].
  - right. exists 0, tail.
    destruct r as [[|] | e]; [eexists | congruence | eexists];
      (split; [lia |]); (split; [reflexivity |]); (split; [discriminate | assumption]).
Qed.

End GeneratorCalls.

Lemma count_calls_pending_log (thread_id : value) (run_id : string) (p : call → bool) (k : nat) :
  count_calls p (pending_log thread_id run_id k)
    = if p (RunsRetrieve thread_id run_id) then k else 0.
Proof.
  unfold count_calls. rewrite calls_pending_log.
  induction k as [| k IH]; [destruct (p _); reflexivity |].
  cbn. destruct (p (RunsRetrieve thread_id run_id)) eqn:E; cbn; rewrite IH; reflexivity.
Qed.

(** A completed run on a thread whose message list comes back empty:
    [messages.data[0]] raises [IndexError] after the listing, and nothing
    is yielded. *)
Lemma generate_completed_no_messages
    (json_dumps : value → string) (R : Remote) (thread_id : value) (run_id : string)
    (n fuel : nat) :
  (∀ m, m < n →
     ∃ status, runs_retrieve R m thread_id run_id = Ok status ∧ pending status) →
  runs_retrieve R n thread_id run_id = Ok "completed" →
  messages_list R thread_id = Ok [] →
  n < fuel →
  generate json_dumps R thread_id run_id fuel =
    ((pending_log thread_id run_id n ++
      [ECall (RunsRetrieve thread_id run_id); ECall (MessagesList thread_id)])%list,
     Failed IndexError) ∧
  chunks (generate json_dumps R thread_id run_id fuel).1 = [].
Proof.
  intros Hpend Hdone Hlist Hfuel.
  assert (Hiter : iteration json_dumps R thread_id run_id n
                  = ([ECall (RunsRetrieve thread_id run_id); ECall (MessagesList thread_id)],
                     Raise IndexError)).
  { unfold iteration. run. rewrite Hdone. cbn. rewrite Hlist. reflexivity. }
  rewrite (generate_after_pending_raise json_dumps R thread_id run_id n fuel _ _
             Hpend Hiter Hfuel).
  split; [reflexivity |]. cbn [fst]. rewrite chunks_app, chunks_pending_log. reflexivity.
Qed.

Lemma generate_completed_no_messages_witness :
  generate dumps_ascii (with_messages [] demo_remote) (VStr "thread_7") "run_1" 3 =
    ([ECall (RunsRetrieve (VStr "thread_7") "run_1"); ESleep 500;
      ECall (RunsRetrieve (VStr "thread_7") "run_1"); ESleep 500;
      ECall (RunsRetrieve (VStr "thread_7") "run_1");
      ECall (MessagesList (VStr "thread_7"))],
     Failed IndexError).
Proof.
  refine (proj1 (generate_completed_no_messages dumps_ascii (with_messages [] demo_remote)
                   (VStr "thread_7") "run_1" 2 3 _ _ _ _));
    try reflexivity; [| lia].
  intros m Hm. destruct m as [| [| m]]; [| | lia].
  - exists "queued". split; [reflexivity | split; discriminate].
  - exists "in_progress". split; [reflexivity | split; discriminate].
Defined.

(** When [n] polls find the run pending and the next one does not (it
    returns "completed" or "failed", or raises), the generator ends after
    exactly [n + 1] polls and [n] sleeps of 500 ms each; polls after that
    one are never made. *)
Lemma generate_sleeps_and_polls
    (json_dumps : value → string) (R : Remote) (thread_id : value) (run_id : string)
    (n fuel : nat) :
  (∀ m, m < n →
     ∃ status, runs_retrieve R m thread_id run_id = Ok status ∧ pending status) →
  (∃ e, runs_retrieve R n thread_id run_id = Raise e) ∨
  (∃ status, runs_retrieve R n thread_id run_id = Ok status ∧ terminal status) →
  n < fuel →
  (generate json_dumps R thread_id run_id fuel).2 ≠ Polling ∧
  sleeps (generate json_dumps R thread_id run_id fuel).1 = replicate n 500 ∧
  slept (generate json_dumps R thread_id run_id fuel).1 = n * 500 ∧
  count_calls is_runs_retrieve (generate json_dumps R thread_id run_id fuel).1 = S n.
Proof.
  intros Hpend Hlast Hfuel. unfold generate, slept.
  replace fuel with (n + S (fuel - S n)) by lia.
  rewrite generate_from_pending by exact Hpend.
  cbn [Nat.add generate_from].
  assert (Hstop : (iteration json_dumps R thread_id run_id n).2 ≠ Ok Continue).
  { destruct Hlast as [[e He] | (status & Hs & Ht)].
    - unfold iteration. run. rewrite He. discriminate.
    - eapply iteration_terminal; eassumption. }
  destruct (iteration_shape json_dumps R thread_id run_id n)
    as [Heq | (tail & r & Heq & Hr & Htail)]; rewrite Heq in *; [cbn in Hstop; congruence |].
  pose proof (last_turn_tail_sleeps thread_id tail Htail) as Hsl.
  assert (Hcount : count_calls is_runs_retrieve tail = 0).
  { unfold count_calls.
    destruct (last_turn_tail_calls thread_id tail Htail) as [-> | ->]; reflexivity. }
  assert (Hall : sleeps (pending_log thread_id run_id n
                         ++ ECall (RunsRetrieve thread_id run_id) :: tail)
                 = replicate n 500).
  { rewrite sleeps_app, sleeps_pending_log. cbn. fold (sleeps tail).
    rewrite Hsl. apply app_nil_r. }
  assert (Hpolls : count_calls is_runs_retrieve
                     (pending_log thread_id run_id n
                      ++ ECall (RunsRetrieve thread_id run_id) :: tail) = S n).
  { rewrite count_calls_app, count_calls_pending_log. cbn [is_runs_retrieve].
    change (ECall (RunsRetrieve thread_id run_id) :: tail)
      with ([ECall (RunsRetrieve thread_id run_id)] ++ tail)%list.
    rewrite count_calls_app, Hcount. cbn. lia. }
  destruct r as [[|] | e]; [| congruence |]; cbn [fst snd];
    rewrite Hall, Hpolls, sum_list_replicate; repeat split; discriminate.
Qed.

Lemma generate_sleeps_and_polls_witness :
  slept (generate dumps_ascii demo_remote (VStr "thread_7") "run_1" 9).1 = 2 * 500 ∧
  count_calls is_runs_retrieve
    (generate dumps_ascii demo_remote (VStr "thread_7") "run_1" 9).1 = 3.
Proof.
  refine ((λ H, conj (proj1 (proj2 (proj2 H))) (proj2 (proj2 (proj2 H))))
            (generate_sleeps_and_polls dumps_ascii demo_remote
               (VStr "thread_7") "run_1" 2 9 _ _ _)).
  - intros m Hm. destruct m as [| [| m]]; [| | lia].
    + exists "queued". split; [reflexivity | split; discriminate].
    + exists "in_progress". split; [reflexivity | split; discriminate].
  - right. exists "completed". split; [reflexivity | left; reflexivity].
  - lia.
Defined.

(** Whatever the service answers, the generator only reads: each of its
    calls retrieves the run it closed over or lists the messages of its
    thread; the messages are listed at most once, and not while the loop is
    still polling; and every sleep lasts 500 ms. *)
Lemma generate_calls_read_only
    (json_dumps : value → string) (R : Remote) (thread_id : value) (run_id : string)
    (fuel : nat) :
  (∀ c, c ∈ calls (generate json_dumps R thread_id run_id fuel).1 →
     c = RunsRetrieve thread_id run_id ∨ c = MessagesList thread_id) ∧
  count_calls is_messages_list (generate json_dumps R thread_id run_id fuel).1 ≤ 1 ∧
  ((generate json_dumps R thread_id run_id fuel).2 = Polling →
   count_calls is_messages_list (generate json_dumps R thread_id run_id fuel).1 = 0) ∧
  (∀ ms, ms ∈ sleeps (generate json_dumps R thread_id run_id fuel).1 → ms = 500).
Proof.
  unfold generate.
  destruct (generate_from_decompose json_dumps R thread_id run_id fuel 0)
    as [-> | (k & tail & st & Hk & -> & Hst & Htail)]; cbn [fst snd].
  - rewrite calls_pending_log, sleeps_pending_log, count_calls_pending_log.
    cbn [is_messages_list].
    split; [| split; [lia | split; [reflexivity |]]].
    + intros c Hc. apply elem_of_replicate in Hc as [-> _]. left. reflexivity.
    + intros ms Hms. apply elem_of_replicate in Hms as [-> _]. reflexivity.
  - change (ECall (RunsRetrieve thread_id run_id) :: tail)
      with ([ECall (RunsRetrieve thread_id run_id)] ++ tail)%list.
    rewrite !calls_app, !sleeps_app, !count_calls_app, calls_pending_log,
      sleeps_pending_log, count_calls_pending_log,
      (last_turn_tail_sleeps thread_id tail Htail).
    cbn [is_messages_list].
    assert (Hlist : count_calls is_messages_list tail ≤ 1 ∧
                    ∀ c, c ∈ calls tail → c = MessagesList thread_id).
    { unfold count_calls.
      destruct (last_turn_tail_calls thread_id tail Htail) as [-> | ->]; cbn.
      - split; [lia |]. intros c Hc. inversion Hc.
      - split; [lia |]. intros c Hc. apply list_elem_of_singleton in Hc. exact Hc. }
    destruct Hlist as [Hle Hin].
    split; [| split; [cbn; lia | split; [congruence |]]].
    + intros c Hc. rewrite !elem_of_app in Hc. destruct Hc as [Hc | [Hc | Hc]].
      * apply elem_of_replicate in Hc as [-> _]. left. reflexivity.
      * cbn in Hc. apply list_elem_of_singleton in Hc. left. exact Hc.
      * right. apply Hin. exact Hc.
    + intros ms Hms. cbn in Hms. rewrite app_nil_r in Hms.
      apply elem_of_replicate in Hms as [-> _]. reflexivity.
Qed.

Lemma generate_calls_elem
    (json_dumps : value → string) (R : Remote) (thread_id : value) (run_id : string)
    (fuel : nat) (c : call) :
  c ∈ calls (generate json_dumps R thread_id run_id fuel).1 →
  c = RunsRetrieve thread_id run_id ∨ c = MessagesList thread_id.
Proof.
  unfold generate.
  destruct (generate_from_decompose json_dumps R thread_id run_id fuel 0)
    as [-> | (k & tail & st & Hk & -> & Hst & Htail)]; cbn [fst].
  - rewrite calls_pending_log. intros Hc.
    apply elem_of_replicate in Hc as [-> _]. left. reflexivity.
  - change (ECall (RunsRetrieve thread_id run_id) :: tail)
      with ([ECall (RunsRetrieve thread_id run_id)] ++ tail)%list.
    rewrite !calls_app, calls_pending_log, !elem_of_app.
    intros [Hc | [Hc | Hc]].
    + apply elem_of_replicate in Hc as [-> _]. left. reflexivity.
    + cbn in Hc. apply list_elem_of_singleton in Hc. left. exact Hc.
    + destruct (last_turn_tail_calls thread_id tail Htail) as [Heq | Heq];
        rewrite Heq in Hc; [inversion Hc |].
      apply list_elem_of_singleton in Hc. right. exact Hc.
Qed.

(** ** More on the [/chat] view *)

(** For a dict body, [chat] answers with the event stream exactly when the
    thread is at hand (supplied and truthy, or created) and both the message
    and the run are created on it; the stream then closes over that thread
    and the id issued by [runs.create], with mimetype text/event-stream. *)
Lemma chat_streams_iff (R : Remote) (ASSISTANT_ID : string)
    (items : list (string * value)) (thread_id : value) (run mime : string) :
  let message := default (VStr "") (assoc "message" items) in
  let supplied := default VNone (assoc "thread_id" items) in
  (chat R ASSISTANT_ID (Ok (VDict items))).2 = Ok (RetStream thread_id run mime) ↔
  mime = "text/event-stream" ∧
  ((truthy supplied = true ∧ thread_id = supplied) ∨
   (truthy supplied = false ∧
    ∃ new_id, threads_create R = Ok new_id ∧ thread_id = VStr new_id)) ∧
  messages_create R thread_id "user" message = Ok () ∧
  runs_create R thread_id ASSISTANT_ID = Ok run.
Proof.
  intros message supplied.
  pose proof (chat_dict R ASSISTANT_ID items) as Hchat. cbv zeta in Hchat.
  fold supplied message in Hchat. rewrite Hchat. clear Hchat.
  split.
  - destruct (truthy supplied) eqn:Htruthy.
    + destruct (messages_create R supplied "user" message) as [[] | e] eqn:Hm;
        [destruct (runs_create R supplied ASSISTANT_ID) as [r | e] eqn:Hr |];
        cbn [snd]; intros Hret; try discriminate.
      injection Hret as <- <- <-. auto 6.
    + destruct (threads_create R) as [new_id | e]; [| discriminate].
      destruct (messages_create R (VStr new_id) "user" message) as [[] | e] eqn:Hm;
        [destruct (runs_create R (VStr new_id) ASSISTANT_ID) as [r | e] eqn:Hr |];
        cbn [snd]; intros Hret; try discriminate.
      injection Hret as <- <- <-. split; [reflexivity |].
      split; [right; eauto | auto].
  - intros (-> & [[Htruthy ->] | [Htruthy (new_id & Hnew & ->)]] & Hm & Hr);
      rewrite Htruthy; [| rewrite Hnew; cbn [snd]]; rewrite Hm, Hr; reflexivity.
Qed.

(** The calls of [chat], for any body: none when the body is not a dict;
    otherwise exactly: thread creation (only when the supplied thread id is
    falsy); then, unless that raised, message creation with role user and
    the body's message or the empty string; then, unless that raised, run
    creation on the same thread for the provisioned assistant.  Nothing is
    called after a call that raised, and [chat] itself never polls the run
    or lists messages. *)
Lemma chat_calls_in_order (R : Remote) (ASSISTANT_ID : string)
    (request_json : result value) :
  match request_json with
  | Ok (VDict items) =>
      let message := default (VStr "") (assoc "message" items) in
      let supplied := default VNone (assoc "thread_id" items) in
      let on_thread (thread_id : value) : list call :=
        MessagesCreate thread_id "user" message ::
        match messages_create R thread_id "user" message with
        | Ok _ => [RunsCreate thread_id ASSISTANT_ID]
        | Raise _ => []
        end in
      calls (chat R ASSISTANT_ID request_json).1 =
        if truthy supplied then on_thread supplied
        else ThreadsCreate ::
             match threads_create R with
             | Ok new_id => on_thread (VStr new_id)
             | Raise _ => []
             end
  | _ => (chat R ASSISTANT_ID request_json).1 = []
  end.
Proof.
  destruct request_json as [[| | | | |items] | e]; try reflexivity.
  intros message supplied on_thread. subst on_thread. cbv beta.
  pose proof (chat_dict R ASSISTANT_ID items) as Hchat. cbv zeta in Hchat.
  fold supplied message in Hchat. rewrite Hchat. clear Hchat.
  destruct (truthy supplied).
  - destruct (messages_create R supplied "user" message);
      [destruct (runs_create R supplied ASSISTANT_ID) |]; reflexivity.
  - destruct (threads_create R) as [new_id | e]; [| reflexivity].
    destruct (messages_create R (VStr new_id) "user" message);
      [destruct (runs_create R (VStr new_id) ASSISTANT_ID) |]; reflexivity.
Qed.

(** From request to stream: when [chat] answers with the stream, the user
    message was posted to the stream's thread, the run polled by the
    generator is the one [runs.create] issued for that thread and the
    provisioned assistant, and every call the generator makes is about that
    thread and that run. *)
Lemma chat_stream_same_thread
    (json_dumps : value → string) (R : Remote) (ASSISTANT_ID : string)
    (items : list (string * value)) (thread_id : value) (run mime : string) :
  (chat R ASSISTANT_ID (Ok (VDict items))).2 = Ok (RetStream thread_id run mime) →
  runs_create R thread_id ASSISTANT_ID = Ok run ∧
  MessagesCreate thread_id "user" (default (VStr "") (assoc "message" items))
    ∈ calls (chat R ASSISTANT_ID (Ok (VDict items))).1 ∧
  RunsCreate thread_id ASSISTANT_ID ∈ calls (chat R ASSISTANT_ID (Ok (VDict items))).1 ∧
  ∀ fuel c, c ∈ calls (generate json_dumps R thread_id run fuel).1 →
    c = RunsRetrieve thread_id run ∨ c = MessagesList thread_id.
Proof.
  pose proof (chat_dict R ASSISTANT_ID items) as Hchat. cbv zeta in Hchat.
  rewrite Hchat. clear Hchat.
  set (message := default (VStr "") (assoc "message" items)).
  set (supplied := default VNone (assoc "thread_id" items)).
  intros Hret.
  assert (Hgen : ∀ fuel c, c ∈ calls (generate json_dumps R thread_id run fuel).1 →
                   c = RunsRetrieve thread_id run ∨ c = MessagesList thread_id)
    by (intros fuel c; apply generate_calls_elem).
  destruct (truthy supplied).
  - destruct (messages_create R supplied "user" message);
      [destruct (runs_create R supplied ASSISTANT_ID) eqn:Hr |];
      cbn [fst snd] in *; try discriminate.
    injection Hret as <- <- <-.
    split; [exact Hr |]. split; [| split; [| exact Hgen]]; cbn; set_solver.
  - destruct (threads_create R) as [new_id | e]; [| discriminate].
    destruct (messages_create R (VStr new_id) "user" message);
      [destruct (runs_create R (VStr new_id) ASSISTANT_ID) eqn:Hr |];
      cbn [fst snd] in *; try discriminate.
    injection Hret as <- <- <-.
    split; [exact Hr |]. split; [| split; [| exact Hgen]]; cbn; set_solver.
Qed.

Lemma chat_stream_same_thread_witness :
  runs_create demo_remote (VStr "thread_7") "asst_1" = Ok "run_1" ∧
  MessagesCreate (VStr "thread_7") "user" (VStr "")
    ∈ calls (chat demo_remote "asst_1" (Ok (VDict [("thread_id", VStr "thread_7")]))).1 ∧
  RunsCreate (VStr "thread_7") "asst_1"
    ∈ calls (chat demo_remote "asst_1" (Ok (VDict [("thread_id", VStr "thread_7")]))).1 ∧
  ∀ fuel c, c ∈ calls (generate dumps_ascii demo_remote (VStr "thread_7") "run_1" fuel).1 →
    c = RunsRetrieve (VStr "thread_7") "run_1" ∨ c = MessagesList (VStr "thread_7").
Proof.
  apply (chat_stream_same_thread dumps_ascii demo_remote "asst_1"
           [("thread_id", VStr "thread_7")] (VStr "thread_7") "run_1" "text/event-stream").
  reflexivity.
Defined.

(** ** More on the [/upload] view and the provisioner *)

(** [upload_file] always answers: no exception of the service leaves it.
    The status is 200, 400 or 500; it is 400 exactly when the form has no
    field [file], and 200 exactly when the field is there and both the
    upload and the assistant update succeed. *)
Lemma upload_file_status (R : Remote) (ASSISTANT_ID : string)
    (files : list (string * FileStorage)) :
  ∃ response,
    (upload_file R ASSISTANT_ID files).2 = Ok response ∧
    (status_code response = 200 ∨ status_code response = 400 ∨
     status_code response = 500) ∧
    (status_code response = 400 ↔ assoc "file" files = None) ∧
    (status_code response = 200 ↔
     ∃ file file_id,
       assoc "file" files = Some file ∧
       files_create R (stream file) "assistants" = Ok file_id ∧
       assistants_update R ASSISTANT_ID [file_id] = Ok ()).
Proof.
  unfold upload_file, files_contains, files_getitem.
  destruct (assoc "file" files) as [file |] eqn:Hfile; run; cbn [negb].
  - destruct (files_create R (stream file) "assistants") as [file_id | e] eqn:Hcreate;
      [destruct (assistants_update R ASSISTANT_ID [file_id]) as [[] | e] eqn:Hupdate |];
      eexists; (split; [reflexivity |]); cbn [status_code].
    + split; [auto |]. split; [split; discriminate |].
      split; [intros _; exists file, file_id; auto | reflexivity].
    + split; [auto |]. split; [split; discriminate |].
      split; [discriminate |].
      intros (f & id & Hf & Hc & Hu). congruence.
    + split; [auto |]. split; [split; discriminate |].
      split; [discriminate |].
      intros (f & id & Hf & Hc & Hu). congruence.
  - eexists. split; [reflexivity |]. cbn [status_code].
    split; [auto |]. split; [split; reflexivity |].
    split; [discriminate |]. intros (f & id & Hf & _). discriminate.
Qed.

(** An id returned by the provisioner is vouched for by the service: it is
    the non-empty configured id, just retrieved, or the id a creation call
    just issued.  A retrieval error never leaves the provisioner; when it
    raises, the exception is the creation call's.  At most one retrieval is
    made, and none when the variable is unset or empty. *)
Lemma get_or_create_assistant_verified (R : Remote) (getenv : option string) :
  (∀ id, (get_or_create_assistant R getenv).2 = Ok id →
     (getenv = Some id ∧ id ≠ "" ∧ assistants_retrieve R id = Ok ()) ∨
     assistants_create R chat_assistant_profile = Ok id) ∧
  (∀ e, (get_or_create_assistant R getenv).2 = Raise e →
     assistants_create R chat_assistant_profile = Raise e) ∧
  count_calls is_assistants_retrieve (get_or_create_assistant R getenv).1 ≤ 1 ∧
  (getenv = None ∨ getenv = Some "" →
   count_calls is_assistants_retrieve (get_or_create_assistant R getenv).1 = 0).
Proof.
  unfold get_or_create_assistant, create_assistant, truthy_opt.
  destruct getenv as [id |].
  - destruct (String.eqb_spec id "") as [-> | Hne]; cbn [negb]; run.
    + destruct (assistants_create R chat_assistant_profile) as [new_id | e];
        cbn; repeat split; try (intros ? [= <-]; auto); try lia; discriminate.
    + destruct (assistants_retrieve R id) as [[] | e0] eqn:Hret; cbn.
      * repeat split; try (intros ? [= <-]; auto); try lia; try discriminate.
        intros [H | [= H]]; [discriminate | contradiction].
      * destruct (assistants_create R chat_assistant_profile) as [new_id | e];
          cbn; repeat split; try (intros ? [= <-]; auto); try lia; try discriminate;
          intros [H | [= H]]; try discriminate; contradiction.
  - run.
    destruct (assistants_create R chat_assistant_profile) as [new_id | e];
      cbn; repeat split; try (intros ? [= <-]; auto); try lia; discriminate.
Qed.

(** ** The completed run, after any number of pending polls *)

(** When [n] polls find the run pending and the next finds it completed,
    with the newest message the assistant's and starting with a text block,
    the stream is the [n] pending iterations, the last poll, the listing and
    one frame with that text and the thread id; older messages and further
    blocks play no part. *)
Lemma generate_completed_frame
    (json_dumps : value → string) (R : Remote) (thread_id : value) (run_id : string)
    (n fuel : nat) (latest : message) (rest : list message)
    (text : string) (blocks : list content_block) :
  (∀ m, m < n →
     ∃ status, runs_retrieve R m thread_id run_id = Ok status ∧ pending status) →
  runs_retrieve R n thread_id run_id = Ok "completed" →
  messages_list R thread_id = Ok (latest :: rest) →
  role latest = "assistant" →
  content latest = TextBlock text :: blocks →
  n < fuel →
  generate json_dumps R thread_id run_id fuel =
    ((pending_log thread_id run_id n ++
      [ECall (RunsRetrieve thread_id run_id); ECall (MessagesList thread_id);
       EYield ("data: "
               +:+ json_dumps (VDict [("content", VStr text); ("thread_id", thread_id)])
               +:+ LF +:+ LF)])%list,
     Closed) ∧
  slept (generate json_dumps R thread_id run_id fuel).1 = n * 500.
Proof.
  intros Hpend Hdone Hlist Hrole Hcontent Hfuel.
  rewrite (generate_after_pending json_dumps R thread_id run_id n fuel _ Hpend
             (iteration_completed_assistant json_dumps R thread_id run_id n
                latest rest text blocks Hdone Hlist Hrole Hcontent) Hfuel).
  split; [reflexivity |].
  unfold slept. cbn [fst]. rewrite sleeps_app, sleeps_pending_log. cbn.
  rewrite app_nil_r. apply sum_list_replicate.
Qed.

Lemma generate_completed_frame_witness :
  generate dumps_ascii
    (with_polls (λ _, Ok "completed")
       (with_messages
          [ {| role := "assistant";
               content := [TextBlock "Done."; OtherBlock "ImageFileContentBlock"] |};
            {| role := "user"; content := [TextBlock "hi"] |} ]
          demo_remote))
    (VStr "thread_7") "run_1" 1 =
    ([ECall (RunsRetrieve (VStr "thread_7") "run_1");
      ECall (MessagesList (VStr "thread_7"));
      EYield (sse_frame dumps_ascii (response_data (VStr "thread_7") "Done."))],
     Closed).
Proof.
  refine (proj1 (generate_completed_frame dumps_ascii
                   (with_polls (λ _, Ok "completed")
                      (with_messages
                         [ {| role := "assistant";
                              content := [TextBlock "Done.";
                                          OtherBlock "ImageFileContentBlock"] |};
                           {| role := "user"; content := [TextBlock "hi"] |} ]
                         demo_remote))
                   (VStr "thread_7") "run_1" 0 1
                   {| role := "assistant";
                      content := [TextBlock "Done."; OtherBlock "ImageFileContentBlock"] |}
                   [ {| role := "user"; content := [TextBlock "hi"] |} ]
                   "Done." [OtherBlock "ImageFileContentBlock"] _ _ _ _ _ _));
    try reflexivity; [intros m Hm | ]; lia.
Defined.
